(** * Bank of Somaliland: the funds-transfer engine

    A shallow embedding of the two implementations of a money transfer in the
    repository:

    - [Schema]: the stored procedure [transfer_money] of
      [database/schema.sql], together with the column types and the
      constraints of the [accounts] and [transactions] tables it reads and
      writes;
    - [AppDemo]: the in-browser operations of [js/app_demo.js], which work on
      the arrays [demoUsers], [demoAccounts], [demoTransactions] and
      [demoAlerts].

    The properties of the two are proved in [SchemaProps] and [AppDemoProps].

    Conventions of the [Schema] model.

    - Money is counted in hundredths of the currency unit: 150.00 is 15000
      and 0.005 is one half.  A value stored in a [DECIMAL(15, 2)] column, or
      held by a variable declared so, is an integer number of hundredths;
      storing a number rounds it to the nearest hundredth, ties away from
      zero, and raises [numeric_value_out_of_range] when the result has more
      than 15 digits.
    - The [(15, 2)] and [(50)] written after the types of the parameters of
      [transfer_money] are not kept by [CREATE FUNCTION]: [p_amount] is any
      number, a rational here, and [p_reference_number] any text.
    - A text is the sequence of its characters.  Storing a text in a
      [VARCHAR(50)] column keeps it when it has at most 50 characters, cuts
      it to 50 when all the characters after the 50th are spaces, and raises
      [string_data_right_truncation] otherwise.
    - Every number is finite and every argument and every defaulted column
      ([balance], [status], [daily_transfer_limit], [created_at]) is
      populated (no NaN, no infinity, no SQL NULL); the nullable columns that
      the repository does leave empty ([sender_account_id],
      [receiver_account_id], [completed_at], [failure_reason],
      [description]) are options.
    - One call runs alone: the row lock taken by [FOR UPDATE] has no effect on
      the result of a single call and is not represented.
    - [CURRENT_TIMESTAMP] and the value of [uuid_generate_v4()] are inputs of
      the call.

    Conventions of the [AppDemo] model.

    - A number is a binary64 float.  [find] returns the first matching object
      itself, so an object is known by its index in its array.
    - [localStorage] holds what [JSON.parse] reads back from the text
      [JSON.stringify] wrote: a number that is NaN or infinite is read back
      as [null], and [-0] as [0].  [setItem] accepts every write.
    - Of the page only the toast is represented. *)

From Stdlib Require Import ZArith QArith Qround Lqa Lia PrimFloat FloatAxioms SpecFloat.
From stdpp Require Import base option list strings gmap.

Local Open Scope string_scope.
Local Open Scope Z_scope.

Module Schema.

(** ** Column types *)

Definition uuid := N.

(** [DECIMAL(_, 2)]: an integer number of hundredths. *)
Definition decimal := Z.
Bind Scope Z_scope with decimal.

(** A number without a declared scale, in hundredths. *)
Definition numeric := Q.
Bind Scope Q_scope with numeric.

Definition of_decimal (v : decimal) : numeric := inject_Z v.

(** The nearest integer, ties away from zero. *)
Definition round_half_away (q : numeric) : Z :=
  if Qle_bool 0 q then Qfloor (q + (1 # 2))%Q else - Qfloor (- q + (1 # 2))%Q.

(** A number brought to scale 2. *)
Definition to_decimal (q : numeric) : decimal := round_half_away q.

(** [fits p v]: [v] (in hundredths) has at most [p] decimal digits in all. *)
Definition fits (precision : Z) (v : decimal) : bool :=
  Z.abs v <? 10 ^ precision.

(** [x < y] on numbers. *)
Definition numeric_lt (x y : numeric) : bool := negb (Qle_bool y x).

(** A number of hundredths that is an integer. *)
Definition whole (q : numeric) : Prop := (inject_Z (Qfloor q) == q)%Q.

(** [TIMESTAMP]: seconds on the server's clock; [DATE] keeps the calendar day. *)
Definition timestamp := Z.

Definition DATE (t : timestamp) : Z := t / 86400.

(** A text: its characters, each by its number. *)
Definition character := N.
Definition text := list character.

Definition space : character := 32%N.

(** The text whose characters are those of a literal. *)
Definition ascii_text (s : string) : text := Ascii.N_of_ascii <$> String.list_ascii_of_string s.

(** What a [VARCHAR(n)] column stores of a text, if it accepts it. *)
Definition varchar (n : nat) (t : text) : option text :=
  if bool_decide (Forall (λ c, c = space) (drop n t)) then Some (take n t) else None.

Inductive account_status := ACTIVE | FROZEN | CLOSED.
Inductive account_kind := SAVINGS | CURRENT | BUSINESS.
Inductive transaction_kind := TRANSFER | DEPOSIT | WITHDRAWAL | FEE.
Inductive transaction_status := PENDING | COMPLETED | FAILED | REVERSED.

#[global] Instance account_status_eq_dec : EqDecision account_status.
Proof. solve_decision. Defined.
#[global] Instance transaction_status_eq_dec : EqDecision transaction_status.
Proof. solve_decision. Defined.
#[global] Instance transaction_kind_eq_dec : EqDecision transaction_kind.
Proof. solve_decision. Defined.

(** ** Tables *)

(** A row of [accounts]; the primary key [account_id] is the key of the table. *)
Module accounts.
Record row := {
  user_id : uuid;
  account_number : string;
  balance : decimal;                (* DECIMAL(15, 2) CHECK (balance >= 0) *)
  account_type : account_kind;
  currency : string;
  status : account_status;
  daily_transfer_limit : decimal;   (* DECIMAL(15, 2) *)
  created_at : timestamp;
  updated_at : timestamp
}.

(** [SET balance = b] followed by the trigger [update_accounts_updated_at]. *)
Definition set_balance (b : decimal) (now : timestamp) (a : row) : row :=
  {| user_id := user_id a;
     account_number := account_number a;
     balance := b;
     account_type := account_type a;
     currency := currency a;
     status := status a;
     daily_transfer_limit := daily_transfer_limit a;
     created_at := created_at a;
     updated_at := now |}.
End accounts.

(** A row of [transactions]. *)
Module transactions.
Record row := {
  transaction_id : uuid;
  sender_account_id : option uuid;
  receiver_account_id : option uuid;
  amount : decimal;                 (* DECIMAL(15, 2) NOT NULL CHECK (amount > 0) *)
  transaction_type : transaction_kind;
  status : transaction_status;
  description : option string;
  reference_number : text;          (* VARCHAR(50) UNIQUE NOT NULL *)
  fee_amount : decimal;
  created_at : timestamp;
  completed_at : option timestamp;
  failure_reason : option string
}.

(** [SET status = 'COMPLETED', completed_at = now]. *)
Definition complete (now : timestamp) (t : row) : row :=
  {| transaction_id := transaction_id t;
     sender_account_id := sender_account_id t;
     receiver_account_id := receiver_account_id t;
     amount := amount t;
     transaction_type := transaction_type t;
     status := COMPLETED;
     description := description t;
     reference_number := reference_number t;
     fee_amount := fee_amount t;
     created_at := created_at t;
     completed_at := Some now;
     failure_reason := failure_reason t |}.
End transactions.

(** The part of the database [transfer_money] touches.  [accounts] is keyed
    by its primary key; [transactions] is the log in insertion order. *)
Record database := {
  accounts_table : gmap uuid accounts.row;
  transactions_table : list transactions.row
}.

Definition with_accounts (m : gmap uuid accounts.row) (db : database) : database :=
  {| accounts_table := m; transactions_table := transactions_table db |}.

Definition with_transactions (l : list transactions.row) (db : database) : database :=
  {| accounts_table := accounts_table db; transactions_table := l |}.

(** ** Errors raised by the store *)

Inductive sqlerror :=
| numeric_value_out_of_range
| string_data_right_truncation
| check_violation (relation constraint : string)
| unique_violation (constraint : string).

Definition dquote : string := String (Ascii.ascii_of_nat 34) EmptyString.

Definition quoted (s : string) : string := dquote ++ s ++ dquote.

(** The message text of an error, as [SQLERRM] gives it. *)
Definition SQLERRM (e : sqlerror) : string :=
  match e with
  | numeric_value_out_of_range => "numeric field overflow"
  | string_data_right_truncation => "value too long for type character varying(50)"
  | check_violation r c =>
      "new row for relation " ++ quoted r ++ " violates check constraint " ++ quoted c
  | unique_violation c =>
      "duplicate key value violates unique constraint " ++ quoted c
  end.

(** ** A statement: reads and writes the database, or raises *)

Inductive completion (A : Type) :=
| Done (v : A) (db : database)
| Raised (e : sqlerror).
Arguments Done {A} v db.
Arguments Raised {A} e.

Definition plpgsql (A : Type) : Type := database → completion A.

#[global] Instance plpgsql_ret : MRet plpgsql := λ A v db, Done v db.

#[global] Instance plpgsql_bind : MBind plpgsql := λ A B k c db,
  match c db with
  | Done v db' => k v db'
  | Raised e => Raised e
  end.

(** A query: no write. *)
Definition query {A} (q : database → A) : plpgsql A := λ db, Done (q db) db.

(** The assignment of a value of scale 2 to a variable declared
    [DECIMAL(15, 2)]. *)
Definition into_decimal_15_2 (v : decimal) : plpgsql decimal := λ db,
  if fits 15 v then Done v db else Raised numeric_value_out_of_range.

(** ** The value [transfer_money] returns *)

(** The JSON object built by [json_build_object]; a key that the object does
    not carry is [None]. *)
Record json := {
  success : bool;
  transaction_id : option uuid;
  message : option string;
  error : option string
}.

Definition json_failure (text : string) : json :=
  {| success := false; transaction_id := None; message := None; error := Some text |}.

Definition json_success (id : uuid) : json :=
  {| success := true; transaction_id := Some id;
     message := Some "Transfer completed successfully"; error := None |}.

(** ** The statements of [transfer_money] *)

(** [SELECT balance, daily_transfer_limit FROM accounts
     WHERE account_id = id AND status = 'ACTIVE' FOR UPDATE]; the two values
    have the type of the variables that receive them. *)
Definition select_sender (id : uuid) (db : database) : option (decimal * decimal) :=
  match accounts_table db !! id with
  | Some a =>
      if decide (accounts.status a = ACTIVE)
      then Some (accounts.balance a, accounts.daily_transfer_limit a)
      else None
  | None => None
  end.

(** [EXISTS (SELECT 1 FROM accounts WHERE account_id = id AND status = 'ACTIVE')]. *)
Definition exists_active (id : uuid) (db : database) : bool :=
  match accounts_table db !! id with
  | Some a => bool_decide (accounts.status a = ACTIVE)
  | None => false
  end.

(** The [WHERE] clause of the daily total. *)
Definition counts_today (sender : uuid) (now : timestamp) (t : transactions.row) : bool :=
  bool_decide (transactions.sender_account_id t = Some sender)
  && (DATE (transactions.created_at t) =? DATE now)
  && bool_decide (transactions.status t = COMPLETED).

(** [SELECT COALESCE(SUM(amount), 0) FROM transactions WHERE ...]. *)
Definition select_daily_total (sender : uuid) (now : timestamp) (db : database) : decimal :=
  foldr (λ t acc, transactions.amount t + acc) 0
        (filter (λ t, counts_today sender now t = true) (transactions_table db)).

(** [INSERT INTO transactions (...) VALUES (...) RETURNING transaction_id].
    The values are first converted to the column types, in the order of the
    columns, then the [CHECK] of [amount] is evaluated, then the row enters
    the unique indexes.  The [NOT NULL] columns receive populated arguments,
    and the two foreign keys point at rows the checks before the [INSERT]
    have found. *)
Definition insert_transaction (new_id : uuid) (now : timestamp)
    (sender receiver : uuid) (amount : numeric)
    (description : string) (reference : text) : plpgsql uuid := λ db,
  if negb (fits 15 (to_decimal amount)) then Raised numeric_value_out_of_range
  else
    match varchar 50 reference with
    | None => Raised string_data_right_truncation
    | Some stored_reference =>
        if negb (0 <? to_decimal amount) then
          Raised (check_violation "transactions" "transactions_amount_check")
        else if bool_decide
                  (new_id ∈ (transactions.transaction_id <$> transactions_table db)) then
          Raised (unique_violation "transactions_pkey")
        else if bool_decide
                  (stored_reference
                   ∈ (transactions.reference_number <$> transactions_table db)) then
          Raised (unique_violation "transactions_reference_number_key")
        else
          Done new_id
            (with_transactions
               (transactions_table db ++
                [ {| transactions.transaction_id := new_id;
                     transactions.sender_account_id := Some sender;
                     transactions.receiver_account_id := Some receiver;
                     transactions.amount := to_decimal amount;
                     transactions.transaction_type := TRANSFER;
                     transactions.status := PENDING;
                     transactions.description := Some description;
                     transactions.reference_number := stored_reference;
                     transactions.fee_amount := 0;
                     transactions.created_at := now;
                     transactions.completed_at := None;
                     transactions.failure_reason := None |} ])%list
               db)
    end.

(** [UPDATE accounts SET balance = e WHERE account_id = id], for the
    expression [e] of the old balance. *)
Definition update_balance (id : uuid) (e : decimal → numeric) (now : timestamp)
  : plpgsql unit := λ db,
  match accounts_table db !! id with
  | None => Done () db
  | Some a =>
      let b := to_decimal (e (accounts.balance a)) in
      if negb (fits 15 b) then Raised numeric_value_out_of_range
      else if b <? 0 then Raised (check_violation "accounts" "accounts_balance_check")
      else Done () (with_accounts (<[id := accounts.set_balance b now a]> (accounts_table db)) db)
  end.

(** [UPDATE transactions SET status = 'COMPLETED', completed_at = now
     WHERE transaction_id = id]. *)
Definition complete_transaction (id : uuid) (now : timestamp) : plpgsql unit := λ db,
  Done ()
    (with_transactions
       ((λ t, if decide (transactions.transaction_id t = id)
              then transactions.complete now t else t) <$> transactions_table db)
       db).

(** ** [transfer_money] *)

(** The writes: the [INSERT], the two [UPDATE]s of [accounts], the [UPDATE]
    of [transactions] and the last [RETURN]. *)
Definition perform_transfer (now : timestamp) (new_id : uuid)
    (p_sender_account_id p_receiver_account_id : uuid) (p_amount : numeric)
    (p_description : string) (p_reference_number : text) : plpgsql json :=
  v_transaction_id ←
    insert_transaction new_id now p_sender_account_id p_receiver_account_id
                       p_amount p_description p_reference_number;
  _ ← update_balance p_sender_account_id
        (λ balance, of_decimal balance - p_amount)%Q now;
  _ ← update_balance p_receiver_account_id
        (λ balance, of_decimal balance + p_amount)%Q now;
  _ ← complete_transaction v_transaction_id now;
  mret (json_success v_transaction_id).

(** The statements between [BEGIN] and [EXCEPTION]: the checks, each with
    its [RETURN], then the writes. *)
Definition transfer_money_body (now : timestamp) (new_id : uuid)
    (p_sender_account_id p_receiver_account_id : uuid) (p_amount : numeric)
    (p_description : string) (p_reference_number : text) : plpgsql json :=
  sender ← query (select_sender p_sender_account_id);
  match sender with
  | None => mret (json_failure "Sender account not found or inactive")
  | Some (v_sender_balance, v_sender_limit) =>
      receiver_found ← query (exists_active p_receiver_account_id);
      if negb receiver_found then
        mret (json_failure "Receiver account not found or inactive")
      else if numeric_lt (of_decimal v_sender_balance) p_amount then
        mret (json_failure "Insufficient balance")
      else
        total ← query (select_daily_total p_sender_account_id now);
        v_daily_total ← into_decimal_15_2 total;
        if numeric_lt (of_decimal v_sender_limit)
                      (of_decimal v_daily_total + p_amount)%Q then
          mret (json_failure "Daily transfer limit exceeded")
        else
          perform_transfer now new_id p_sender_account_id p_receiver_account_id
                           p_amount p_description p_reference_number
  end.

(** [BEGIN ... EXCEPTION WHEN OTHERS THEN RETURN json_build_object('success',
    false, 'error', SQLERRM); END]: when a statement of the block raises, the
    writes of the block are undone and the handler builds the result. *)
Definition exception_when_others (block : plpgsql json) (db : database) : json * database :=
  match block db with
  | Done r db' => (r, db')
  | Raised e => (json_failure (SQLERRM e), db)
  end.

Definition transfer_money (now : timestamp) (new_id : uuid)
    (p_sender_account_id p_receiver_account_id : uuid) (p_amount : numeric)
    (p_description : string) (p_reference_number : text) (db : database)
  : json * database :=
  exception_when_others
    (transfer_money_body now new_id p_sender_account_id p_receiver_account_id
                         p_amount p_description p_reference_number)
    db.

(** ** Reading the result *)

(** The reasons of a business rejection.  [transfer_money] reports a
    rejection through the text under the key [error]: the four texts it
    writes itself stand for four of the reasons, and a text that comes from
    [SQLERRM] stands for none of them. *)
Inductive reason :=
| SenderUnavailable
| ReceiverUnavailable
| SelfTransferNotAllowed
| InvalidAmount
| InsufficientFunds
| DailyLimitExceeded
| DuplicateReference.

Inductive outcome :=
| Completed
| Rejected (why : reason)
| Fault (text : string).

Definition reason_of (text : string) : option reason :=
  if decide (text = "Sender account not found or inactive") then Some SenderUnavailable
  else if decide (text = "Receiver account not found or inactive") then Some ReceiverUnavailable
  else if decide (text = "Insufficient balance") then Some InsufficientFunds
  else if decide (text = "Daily transfer limit exceeded") then Some DailyLimitExceeded
  else None.

Definition outcome_of (r : json) : outcome :=
  if success r then Completed
  else match error r with
       | Some text =>
           match reason_of text with
           | Some why => Rejected why
           | None => Fault text
           end
       | None => Fault EmptyString
       end.

(** ** Views of the database used in the statements below *)

(** The balance of an account; 0 for an id that has no row. *)
Definition balance_of (db : database) (id : uuid) : decimal :=
  match accounts_table db !! id with
  | Some a => accounts.balance a
  | None => 0
  end.

(** The sum of the balances of the accounts [ids]. *)
Definition total_balance (db : database) (ids : list uuid) : decimal :=
  foldr (λ id acc, balance_of db id + acc) 0 ids.

(** [CHECK (balance >= 0)] holds of every row. *)
Definition balances_nonneg (db : database) : Prop :=
  ∀ id a, accounts_table db !! id = Some a → 0 ≤ accounts.balance a.


(** The balances after the two [UPDATE]s of a transfer of [a] from [s] to
    [r]: the sender's row first, then the receiver's. *)
Definition debited (a : numeric) (b : decimal) : decimal :=
  to_decimal (of_decimal b - a)%Q.

Definition credited (a : numeric) (b : decimal) : decimal :=
  to_decimal (of_decimal b + a)%Q.

Definition moved (s r : uuid) (a : numeric) (k : uuid) (b : decimal) : decimal :=
  let b1 := if decide (k = s) then debited a b else b in
  if decide (k = r) then credited a b1 else b1.

(** One call of [transfer_money], with the clock and the fresh id it sees. *)
Record call := {
  call_now : timestamp;
  call_new_id : uuid;
  call_sender : uuid;
  call_receiver : uuid;
  call_amount : numeric;
  call_description : string;
  call_reference : text
}.

Definition execute (c : call) (db : database) : json * database :=
  transfer_money (call_now c) (call_new_id c) (call_sender c) (call_receiver c)
                 (call_amount c) (call_description c) (call_reference c) db.

(** The database after a sequence of calls, each in its own transaction. *)
Fixpoint run (cs : list call) (db : database) : database :=
  match cs with
  | [] => db
  | c :: cs' => run cs' (execute c db).2
  end.

(** The checks of the procedure pass, read on the rows: sender and receiver
    have ACTIVE rows, the amount is not above the sender's balance, the
    day's total fits its variable and, with the amount, is not above the
    sender's limit. *)
Definition passes_checks (now : timestamp) (s r : uuid) (a : numeric) (db : database) : Prop :=
  ∃ sa ra,
    accounts_table db !! s = Some sa ∧ accounts.status sa = ACTIVE ∧
    accounts_table db !! r = Some ra ∧ accounts.status ra = ACTIVE ∧
    (a <= of_decimal (accounts.balance sa))%Q ∧
    - 10 ^ 15 < select_daily_total s now db < 10 ^ 15 ∧
    (of_decimal (select_daily_total s now db) + a
     <= of_decimal (accounts.daily_transfer_limit sa))%Q.

(** ** The rows a transfer writes, and the constraints of the two tables *)

(** The row of [transactions] a successful call leaves, for the amount and
    the reference number as stored: the inserted values with [status] and
    [completed_at] as the last [UPDATE] sets them. *)
Definition completed_transfer (now : timestamp) (new_id s r : uuid) (amount : decimal)
    (d : string) (reference : text) : transactions.row :=
  {| transactions.transaction_id := new_id;
     transactions.sender_account_id := Some s;
     transactions.receiver_account_id := Some r;
     transactions.amount := amount;
     transactions.transaction_type := TRANSFER;
     transactions.status := COMPLETED;
     transactions.description := Some d;
     transactions.reference_number := reference;
     transactions.fee_amount := 0;
     transactions.created_at := now;
     transactions.completed_at := Some now;
     transactions.failure_reason := None |}.

(** The columns of [accounts] that no statement of [transfer_money] assigns. *)
Definition account_holder (a : accounts.row)
  : uuid * string * account_kind * string * account_status * decimal * timestamp :=
  (accounts.user_id a, accounts.account_number a, accounts.account_type a,
   accounts.currency a, accounts.status a, accounts.daily_transfer_limit a,
   accounts.created_at a).

(** A [balance] is a [DECIMAL(15, 2)] that passes [CHECK (balance >= 0)]. *)
Definition balances_in_range (db : database) : Prop :=
  ∀ id a, accounts_table db !! id = Some a → 0 ≤ accounts.balance a < 10 ^ 15.

(** The account an optional foreign key points at has a row. *)
Definition references_account (db : database) (fk : option uuid) : Prop :=
  match fk with
  | Some id => is_Some (accounts_table db !! id)
  | None => True
  end.

(** The constraints the schema declares on [transactions]: the primary key,
    [UNIQUE] and [VARCHAR(50)] of [reference_number], [CHECK (amount > 0)]
    within [DECIMAL(15, 2)], and the two foreign keys. *)
Definition transactions_constraints (db : database) : Prop :=
  NoDup (transactions.transaction_id <$> transactions_table db) ∧
  NoDup (transactions.reference_number <$> transactions_table db) ∧
  Forall (λ t, (length (transactions.reference_number t) ≤ 50)%nat ∧
               0 < transactions.amount t < 10 ^ 15 ∧
               references_account db (transactions.sender_account_id t) ∧
               references_account db (transactions.receiver_account_id t))
         (transactions_table db).

(** What a COMPLETED row says about account [k]: its amount, received or sent. *)
Definition signed_amount (k : uuid) (t : transactions.row) : decimal :=
  if decide (transactions.status t = COMPLETED) then
    (if decide (transactions.receiver_account_id t = Some k)
     then transactions.amount t else 0)
    - (if decide (transactions.sender_account_id t = Some k)
       then transactions.amount t else 0)
  else 0.

(** Credits minus debits of [k] over the COMPLETED rows. *)
Definition net_flow (k : uuid) (db : database) : decimal :=
  foldr (λ t acc, signed_amount k t + acc) 0 (transactions_table db).

(** The conditions under which a call goes through, read on the rows: the
    checks pass, the amount as stored is positive, the credit does not
    overflow the receiver's balance, the column accepts the reference
    number, and the reference number as stored and the generated id are
    new. *)
Definition accepted (now : timestamp) (new_id s r : uuid) (a : numeric)
    (ref : text) (db : database) : Prop :=
  passes_checks now s r a db ∧
  0 < to_decimal a ∧
  credited a (if decide (s = r) then debited a (balance_of db s) else balance_of db r)
    < 10 ^ 15 ∧
  (new_id ∉ (transactions.transaction_id <$> transactions_table db)) ∧
  ∃ stored_reference,
    varchar 50 ref = Some stored_reference ∧
    stored_reference ∉ (transactions.reference_number <$> transactions_table db).

(** ** Sample data

    The two accounts of the [SAMPLE DATA] section of the schema: 50000.00 each,
    [SAVINGS], with the defaults of the other columns. *)

Definition sample_account (owner : uuid) (number : string) : accounts.row :=
  {| accounts.user_id := owner;
     accounts.account_number := number;
     accounts.balance := 5000000;
     accounts.account_type := SAVINGS;
     accounts.currency := "SLSH";
     accounts.status := ACTIVE;
     accounts.daily_transfer_limit := 10000000;
     accounts.created_at := 0;
     accounts.updated_at := 0 |}.

Definition ahmed : uuid := 101%N.
Definition fatima : uuid := 102%N.

Definition sample_db : database :=
  {| accounts_table :=
       <[ahmed := sample_account 1%N "SL0000000001"]>
         (<[fatima := sample_account 2%N "SL0000000002"]> ∅);
     transactions_table := [] |}.

(** The same accounts, [fatima] holding almost the largest value of the column. *)
Definition full_db : database :=
  with_accounts
    (<[fatima := accounts.set_balance (10 ^ 15 - 1) 0 (sample_account 2%N "SL0000000002")]>
       (accounts_table sample_db))
    sample_db.

(** 100.00 on the account, limit 100000.00, nothing sent today, 150.00 asked. *)
Definition poor_db : database :=
  with_accounts
    (<[ahmed := accounts.set_balance 10000 0 (sample_account 1%N "SL0000000001")]>
       (accounts_table sample_db))
    sample_db.

(** A COMPLETED transfer of [amount] from [ahmed] to [fatima] at time 30. *)
Definition earlier_transfer (id : uuid) (amount : decimal) (reference : string)
  : transactions.row :=
  {| transactions.transaction_id := id;
     transactions.sender_account_id := Some ahmed;
     transactions.receiver_account_id := Some fatima;
     transactions.amount := amount;
     transactions.transaction_type := TRANSFER;
     transactions.status := COMPLETED;
     transactions.description := Some "school fees";
     transactions.reference_number := ascii_text reference;
     transactions.fee_amount := 0;
     transactions.created_at := 30;
     transactions.completed_at := Some 30;
     transactions.failure_reason := None |}.

(** 500.00 on the account, limit 1000.00, 900.00 already sent today. *)
Definition busy_db : database :=
  {| accounts_table :=
       <[ahmed := {| accounts.user_id := 1%N;
                     accounts.account_number := "SL0000000001";
                     accounts.balance := 50000;
                     accounts.account_type := SAVINGS;
                     accounts.currency := "SLSH";
                     accounts.status := ACTIVE;
                     accounts.daily_transfer_limit := 100000;
                     accounts.created_at := 0;
                     accounts.updated_at := 30 |}]>
         (accounts_table sample_db);
     transactions_table := [ earlier_transfer 800%N 90000 "TXN-0" ] |}.


(** 150.00 from [ahmed] to [fatima], 40.00 back, and a call that fails. *)
Definition three_calls : list call :=
  [ {| call_now := 60; call_new_id := 900%N; call_sender := ahmed;
       call_receiver := fatima; call_amount := 15000%Q;
       call_description := "rent"; call_reference := ascii_text "TXN-1" |};
    {| call_now := 70; call_new_id := 901%N; call_sender := fatima;
       call_receiver := ahmed; call_amount := 4000%Q;
       call_description := "change"; call_reference := ascii_text "TXN-2" |};
    {| call_now := 80; call_new_id := 902%N; call_sender := ahmed;
       call_receiver := fatima; call_amount := 999999999%Q;
       call_description := "too much"; call_reference := ascii_text "TXN-3" |} ].

(** Both sample accounts frozen or closed in turn. *)
Definition frozen_db (who : uuid) (st : account_status) : database :=
  with_accounts
    (alter (λ a, {| accounts.user_id := accounts.user_id a;
                    accounts.account_number := accounts.account_number a;
                    accounts.balance := accounts.balance a;
                    accounts.account_type := accounts.account_type a;
                    accounts.currency := accounts.currency a;
                    accounts.status := st;
                    accounts.daily_transfer_limit := accounts.daily_transfer_limit a;
                    accounts.created_at := accounts.created_at a;
                    accounts.updated_at := accounts.updated_at a |}) who
           (accounts_table sample_db))
    sample_db.

End Schema.


(** * The demo: [transferMoney] of [js/app_demo.js]

    The demo keeps its data in four arrays of objects and in [currentUser].
    Amounts are JavaScript numbers, that is binary64 floats.  [find] returns
    the first matching object itself, so a later assignment to one of its
    properties changes the array: an object is known here by its index.  The
    values the browser supplies to one call ([generateId], [Math.random], the
    clock, the number formatter) are collected in [browser].  [saveData]
    writes the arrays to [localStorage] as JSON texts, and [localStorage] is
    represented by what [JSON.parse] reads back from them.  Of the page only
    the toast is represented. *)

Module AppDemo.

Module user.
Record t := {
  user_id : string;
  full_name : string;
  email : string;
  phone : string;
  password : string;
  kyc_status : string;
  is_admin : bool;
  created_at : string
}.
End user.

Module account.
Record t := {
  account_id : string;
  user_id : string;
  account_number : string;
  balance_slsh : float;
  balance_usd : float;
  account_type : string;
  status : string;
  created_at : string
}.

Definition set_balance_slsh (b : float) (a : t) : t :=
  {| account_id := account_id a;
     user_id := user_id a;
     account_number := account_number a;
     balance_slsh := b;
     balance_usd := balance_usd a;
     account_type := account_type a;
     status := status a;
     created_at := created_at a |}.
End account.

Module transaction.
Record t := {
  transaction_id : string;
  sender_account_id : option string;
  receiver_account_id : option string;
  amount : float;
  currency : string;
  transaction_type : string;
  status : string;
  description : string;
  reference_number : string;
  created_at : string
}.
End transaction.

Module alert.
Record t := {
  alert_id : string;
  user_id : string;
  alert_type : string;
  severity : string;
  message : string;
  is_read : bool;
  created_at : string
}.
End alert.

(** A number after [JSON.stringify] and [JSON.parse]: [null] for NaN and for
    the infinities, [0] for [-0], and the number itself otherwise. *)
Definition json_number (x : float) : option float :=
  if PrimFloat.is_nan x || PrimFloat.is_infinity x then None
  else if PrimFloat.is_zero x then Some 0%float
  else Some x.

(** An account object as it is read back from [localStorage]. *)
Module saved_account.
Record t := {
  account_id : string;
  user_id : string;
  account_number : string;
  balance_slsh : option float;
  balance_usd : option float;
  account_type : string;
  status : string;
  created_at : string
}.
End saved_account.

(** A transaction object as it is read back from [localStorage]. *)
Module saved_transaction.
Record t := {
  transaction_id : string;
  sender_account_id : option string;
  receiver_account_id : option string;
  amount : option float;
  currency : string;
  transaction_type : string;
  status : string;
  description : string;
  reference_number : string;
  created_at : string
}.
End saved_transaction.

Definition json_account (a : account.t) : saved_account.t :=
  {| saved_account.account_id := account.account_id a;
     saved_account.user_id := account.user_id a;
     saved_account.account_number := account.account_number a;
     saved_account.balance_slsh := json_number (account.balance_slsh a);
     saved_account.balance_usd := json_number (account.balance_usd a);
     saved_account.account_type := account.account_type a;
     saved_account.status := account.status a;
     saved_account.created_at := account.created_at a |}.

Definition json_transaction (t : transaction.t) : saved_transaction.t :=
  {| saved_transaction.transaction_id := transaction.transaction_id t;
     saved_transaction.sender_account_id := transaction.sender_account_id t;
     saved_transaction.receiver_account_id := transaction.receiver_account_id t;
     saved_transaction.amount := json_number (transaction.amount t);
     saved_transaction.currency := transaction.currency t;
     saved_transaction.transaction_type := transaction.transaction_type t;
     saved_transaction.status := transaction.status t;
     saved_transaction.description := transaction.description t;
     saved_transaction.reference_number := transaction.reference_number t;
     saved_transaction.created_at := transaction.created_at t |}.

(** The five items of [localStorage], as [JSON.parse] reads them.  The
    objects of [demoUsers] and [demoAlerts] hold strings and booleans only
    and are read back as they were. *)
Record storage := {
  stored_demoUsers : list user.t;
  stored_demoAccounts : list saved_account.t;
  stored_demoTransactions : list saved_transaction.t;
  stored_demoAlerts : list alert.t;
  stored_currentUser : option user.t
}.

Record state := {
  demoUsers : list user.t;
  demoAccounts : list account.t;
  demoTransactions : list transaction.t;
  demoAlerts : list alert.t;
  currentUser : option user.t;
  localStorage : storage;
  toast : option (string * string)
}.

(** The values one call of [transferMoney] takes from the browser. *)
Record browser := {
  generateId_transaction : string;
  generateId_alert : string;
  random_base36 : string;
  date_transaction : string;
  date_alert : string;
  NumberFormat : float → string
}.

Definition formatCurrency (env : browser) (amount : float) (currency : string) : string :=
  if decide (currency = "USD")
  then ("$" ++ NumberFormat env amount)%string
  else (NumberFormat env amount ++ " SLSH")%string.

Definition showToast (message type : string) (st : state) : state :=
  {| demoUsers := demoUsers st;
     demoAccounts := demoAccounts st;
     demoTransactions := demoTransactions st;
     demoAlerts := demoAlerts st;
     currentUser := currentUser st;
     localStorage := localStorage st;
     toast := Some (message, type) |}.

(** The five [localStorage.setItem(key, JSON.stringify(value))]; each of
    them is taken to be accepted by the browser. *)
Definition saveData (st : state) : state :=
  {| demoUsers := demoUsers st;
     demoAccounts := demoAccounts st;
     demoTransactions := demoTransactions st;
     demoAlerts := demoAlerts st;
     currentUser := currentUser st;
     localStorage :=
       {| stored_demoUsers := demoUsers st;
          stored_demoAccounts := json_account <$> demoAccounts st;
          stored_demoTransactions := json_transaction <$> demoTransactions st;
          stored_demoAlerts := demoAlerts st;
          stored_currentUser := currentUser st |};
     toast := toast st |}.

(** The arrays after the assignments and the [push]es of a transfer. *)
Definition with_arrays (accounts : list account.t) (transactions : list transaction.t)
    (alerts : list alert.t) (st : state) : state :=
  {| demoUsers := demoUsers st;
     demoAccounts := accounts;
     demoTransactions := transactions;
     demoAlerts := alerts;
     currentUser := currentUser st;
     localStorage := localStorage st;
     toast := toast st |}.

(** [a => a.user_id === currentUser.user_id && a.status === 'ACTIVE']. *)
Definition active_account_of (u : user.t) (a : account.t) : Prop :=
  account.user_id a = user.user_id u ∧ account.status a = "ACTIVE".

(** [a => a.account_number === receiverAccount && a.status === 'ACTIVE']. *)
Definition active_account_numbered (number : string) (a : account.t) : Prop :=
  account.account_number a = number ∧ account.status a = "ACTIVE".

#[global] Instance active_account_of_dec u a : Decision (active_account_of u a).
Proof. unfold active_account_of. apply _. Defined.

#[global] Instance active_account_numbered_dec n a : Decision (active_account_numbered n a).
Proof. unfold active_account_numbered. apply _. Defined.

(** The object built for [demoTransactions.push]. *)
Definition transfer_record (env : browser) (senderAccount receiverAcc : account.t)
    (amount : float) (description : string) : transaction.t :=
  {| transaction.transaction_id := generateId_transaction env;
     transaction.sender_account_id := Some (account.account_id senderAccount);
     transaction.receiver_account_id := Some (account.account_id receiverAcc);
     transaction.amount := amount;
     transaction.currency := "SLSH";
     transaction.transaction_type := "TRANSFER";
     transaction.status := "COMPLETED";
     transaction.description := description;
     transaction.reference_number := ("TXN" ++ random_base36 env)%string;
     transaction.created_at := date_transaction env |}.

(** The object built for [demoAlerts.push] when [amount > 10000]. *)
Definition large_transfer_alert (env : browser) (u : user.t) (amount : float) : alert.t :=
  {| alert.alert_id := generateId_alert env;
     alert.user_id := user.user_id u;
     alert.alert_type := "LARGE_WITHDRAWAL";
     alert.severity := "MEDIUM";
     alert.message :=
       ("Large transfer of " ++ formatCurrency env amount "SLSH" ++ " completed")%string;
     alert.is_read := false;
     alert.created_at := date_alert env |}.

Definition debit (amount : float) (a : account.t) : account.t :=
  account.set_balance_slsh (PrimFloat.sub (account.balance_slsh a) amount) a.

Definition credit (amount : float) (a : account.t) : account.t :=
  account.set_balance_slsh (PrimFloat.add (account.balance_slsh a) amount) a.

Definition transferMoney (env : browser) (receiverAccount : string) (amount : float)
    (description : string) (st : state) : state :=
  match currentUser st with
  | None => st
  | Some u =>
      match list_find (active_account_of u) (demoAccounts st) with
      | None => showToast "No active account found" "error" st
      | Some (i, senderAccount) =>
          match list_find (active_account_numbered receiverAccount) (demoAccounts st) with
          | None => showToast "Receiver account not found" "error" st
          | Some (j, receiverAcc) =>
              if PrimFloat.ltb (account.balance_slsh senderAccount) amount then
                showToast "Insufficient balance" "error" st
              else
                let accounts :=
                  alter (credit amount) j (alter (debit amount) i (demoAccounts st)) in
                let transaction :=
                  transfer_record env senderAccount receiverAcc amount description in
                let transactions := (demoTransactions st ++ [transaction])%list in
                let alerts :=
                  if PrimFloat.ltb 10000%float amount
                  then (demoAlerts st ++ [large_transfer_alert env u amount])%list
                  else demoAlerts st in
                showToast
                  ("Transfer successful! Reference: "
                   ++ transaction.reference_number transaction)%string
                  "success"
                  (saveData (with_arrays accounts transactions alerts st))
          end
      end
  end.

(** ** The demo data

    The pre-configured account of the demo and the account [register] opens
    for a new user. *)

Definition admin_user : user.t :=
  {| user.user_id := "u-1";
     user.full_name := "Abdiraxman Xasan";
     user.email := "abdiraxmanxasan03@gmail.com";
     user.phone := "+252634567890";
     user.password := "dhagburo123";
     user.kyc_status := "VERIFIED";
     user.is_admin := true;
     user.created_at := "2026-01-01T00:00:00.000Z" |}.

Definition admin_account : account.t :=
  {| account.account_id := "a-1";
     account.user_id := "u-1";
     account.account_number := "SL1234567890";
     account.balance_slsh := 100000%float;
     account.balance_usd := 50%float;
     account.account_type := "SAVINGS";
     account.status := "ACTIVE";
     account.created_at := "2026-01-01T00:00:00.000Z" |}.

Definition registered_account : account.t :=
  {| account.account_id := "a-2";
     account.user_id := "u-2";
     account.account_number := "SL0000000042";
     account.balance_slsh := 50000%float;
     account.balance_usd := 10%float;
     account.account_type := "SAVINGS";
     account.status := "ACTIVE";
     account.created_at := "2026-01-02T00:00:00.000Z" |}.

Definition demo_state : state :=
  {| demoUsers := [admin_user];
     demoAccounts := [admin_account; registered_account];
     demoTransactions := [];
     demoAlerts := [];
     currentUser := Some admin_user;
     localStorage :=
       {| stored_demoUsers := [admin_user];
          stored_demoAccounts := json_account <$> [admin_account; registered_account];
          stored_demoTransactions := [];
          stored_demoAlerts := [];
          stored_currentUser := Some admin_user |};
     toast := None |}.

Definition demo_browser : browser :=
  {| generateId_transaction := "t-1";
     generateId_alert := "l-1";
     random_base36 := "K3J9X0QZ1";
     date_transaction := "2026-01-03T10:00:00.000Z";
     date_alert := "2026-01-03T10:00:00.001Z";
     NumberFormat := λ _, "20,000.00" |}.

(** ** The other operations of the demo *)

(** [x || 0] on a number: 0 for the falsy numbers [0], [-0] and [NaN]. *)
Definition or_zero (x : float) : float :=
  if PrimFloat.eqb x 0%float || negb (PrimFloat.eqb x x) then 0%float else x.

Definition set_balance_usd (b : float) (a : account.t) : account.t :=
  {| account.account_id := account.account_id a;
     account.user_id := account.user_id a;
     account.account_number := account.account_number a;
     account.balance_slsh := account.balance_slsh a;
     account.balance_usd := b;
     account.account_type := account.account_type a;
     account.status := account.status a;
     account.created_at := account.created_at a |}.

(** The object [depositMoney] pushes to [demoTransactions]. *)
Definition deposit_record (env : browser) (userAccount : account.t)
    (currency : string) (amount : float) : transaction.t :=
  {| transaction.transaction_id := generateId_transaction env;
     transaction.sender_account_id := None;
     transaction.receiver_account_id := Some (account.account_id userAccount);
     transaction.amount := amount;
     transaction.currency := currency;
     transaction.transaction_type := "DEPOSIT";
     transaction.status := "COMPLETED";
     transaction.description := "Cash deposit";
     transaction.reference_number := ("DEP" ++ random_base36 env)%string;
     transaction.created_at := date_transaction env |}.

Definition deposit_alert (env : browser) (u : user.t) (currency : string)
    (amount : float) : alert.t :=
  {| alert.alert_id := generateId_alert env;
     alert.user_id := user.user_id u;
     alert.alert_type := "DEPOSIT";
     alert.severity := "LOW";
     alert.message :=
       ("Deposit of " ++ formatCurrency env amount currency ++ " successful")%string;
     alert.is_read := false;
     alert.created_at := date_alert env |}.

(** [userAccount.balance_usd = (userAccount.balance_usd || 0) + amount], or
    the same on [balance_slsh]. *)
Definition deposit_to (currency : string) (amount : float) (a : account.t) : account.t :=
  if decide (currency = "USD")
  then set_balance_usd (PrimFloat.add (or_zero (account.balance_usd a)) amount) a
  else account.set_balance_slsh (PrimFloat.add (or_zero (account.balance_slsh a)) amount) a.

Definition depositMoney (env : browser) (currency : string) (amount : float)
    (st : state) : state :=
  match currentUser st with
  | None => st
  | Some u =>
      match list_find (active_account_of u) (demoAccounts st) with
      | None => showToast "No active account found" "error" st
      | Some (i, userAccount) =>
          let accounts := alter (deposit_to currency amount) i (demoAccounts st) in
          let transactions :=
            (demoTransactions st ++ [deposit_record env userAccount currency amount])%list in
          let alerts := (demoAlerts st ++ [deposit_alert env u currency amount])%list in
          showToast
            ("Deposit successful! " ++ formatCurrency env amount currency ++ " added")%string
            "success"
            (saveData (with_arrays accounts transactions alerts st))
      end
  end.

(** The object [withdrawMoney] pushes to [demoTransactions]. *)
Definition withdrawal_record (env : browser) (userAccount : account.t)
    (currency : string) (amount : float) : transaction.t :=
  {| transaction.transaction_id := generateId_transaction env;
     transaction.sender_account_id := Some (account.account_id userAccount);
     transaction.receiver_account_id := None;
     transaction.amount := amount;
     transaction.currency := currency;
     transaction.transaction_type := "WITHDRAWAL";
     transaction.status := "COMPLETED";
     transaction.description := "Cash withdrawal";
     transaction.reference_number := ("WTH" ++ random_base36 env)%string;
     transaction.created_at := date_transaction env |}.

Definition large_withdrawal_alert (env : browser) (u : user.t) (currency : string)
    (amount : float) : alert.t :=
  {| alert.alert_id := generateId_alert env;
     alert.user_id := user.user_id u;
     alert.alert_type := "LARGE_WITHDRAWAL";
     alert.severity := "MEDIUM";
     alert.message :=
       ("Large withdrawal of " ++ formatCurrency env amount currency ++ " completed")%string;
     alert.is_read := false;
     alert.created_at := date_alert env |}.

(** [currency === 'USD' ? (balance_usd || 0) : (balance_slsh || 0)]. *)
Definition currentBalance (currency : string) (a : account.t) : float :=
  if decide (currency = "USD") then or_zero (account.balance_usd a)
  else or_zero (account.balance_slsh a).

(** [userAccount.balance_usd -= amount], or the same on [balance_slsh]. *)
Definition withdraw_from (currency : string) (amount : float) (a : account.t) : account.t :=
  if decide (currency = "USD")
  then set_balance_usd (PrimFloat.sub (account.balance_usd a) amount) a
  else account.set_balance_slsh (PrimFloat.sub (account.balance_slsh a) amount) a.

(** [amount > 10000 || (currency === 'USD' && amount > 100)]. *)
Definition is_large_withdrawal (currency : string) (amount : float) : bool :=
  PrimFloat.ltb 10000%float amount
  || (bool_decide (currency = "USD") && PrimFloat.ltb 100%float amount).

Definition withdrawMoney (env : browser) (currency : string) (amount : float)
    (st : state) : state :=
  match currentUser st with
  | None => st
  | Some u =>
      match list_find (active_account_of u) (demoAccounts st) with
      | None => showToast "No active account found" "error" st
      | Some (i, userAccount) =>
          if PrimFloat.ltb (currentBalance currency userAccount) amount then
            showToast ("Insufficient " ++ currency ++ " balance")%string "error" st
          else
            let accounts := alter (withdraw_from currency amount) i (demoAccounts st) in
            let transactions :=
              (demoTransactions st
               ++ [withdrawal_record env userAccount currency amount])%list in
            let alerts :=
              if is_large_withdrawal currency amount
              then (demoAlerts st ++ [large_withdrawal_alert env u currency amount])%list
              else demoAlerts st in
            showToast
              ("Withdrawal successful! " ++ formatCurrency env amount currency
               ++ " withdrawn")%string
              "success"
              (saveData (with_arrays accounts transactions alerts st))
      end
  end.

(** The values [register] takes from the browser. *)
Record registration := {
  generateId_user : string;
  generateId_account : string;
  generateAccountNumber : string;
  generateId_welcome : string;
  date_user : string;
  date_account : string;
  date_welcome : string
}.

(** [u => u.email === email || u.phone === phone]. *)
Definition same_email_or_phone (email phone : string) (u : user.t) : Prop :=
  user.email u = email ∨ user.phone u = phone.

#[global] Instance same_email_or_phone_dec e p u : Decision (same_email_or_phone e p u).
Proof. unfold same_email_or_phone. apply _. Defined.

Definition new_user (env : registration) (fullName email phone password : string) : user.t :=
  {| user.user_id := generateId_user env;
     user.full_name := fullName;
     user.email := email;
     user.phone := phone;
     user.password := password;
     user.kyc_status := "VERIFIED";
     user.is_admin := false;
     user.created_at := date_user env |}.

Definition new_account (env : registration) : account.t :=
  {| account.account_id := generateId_account env;
     account.user_id := generateId_user env;
     account.account_number := generateAccountNumber env;
     account.balance_slsh := 50000%float;
     account.balance_usd := 10%float;
     account.account_type := "SAVINGS";
     account.status := "ACTIVE";
     account.created_at := date_account env |}.

Definition welcome_alert (env : registration) : alert.t :=
  {| alert.alert_id := generateId_welcome env;
     alert.user_id := generateId_user env;
     alert.alert_type := "ACCOUNT_ACCESS";
     alert.severity := "LOW";
     alert.message := "Welcome! Your multi-currency account is ready.";
     alert.is_read := false;
     alert.created_at := date_welcome env |}.

Definition register (env : registration) (fullName email phone password : string)
    (st : state) : state :=
  match list_find (same_email_or_phone email phone) (demoUsers st) with
  | Some _ => showToast "User already exists with this email or phone" "error" st
  | None =>
      let user := new_user env fullName email phone password in
      showToast "Account created successfully!" "success"
        (saveData
           {| demoUsers := (demoUsers st ++ [user])%list;
              demoAccounts := (demoAccounts st ++ [new_account env])%list;
              demoTransactions := demoTransactions st;
              demoAlerts := (demoAlerts st ++ [welcome_alert env])%list;
              currentUser := Some user;
              localStorage := localStorage st;
              toast := toast st |})
  end.

(** The values [login] takes from the browser. *)
Record session := {
  generateId_login : string;
  toLocaleString : string;
  date_login : string
}.

(** [u => u.email === email && u.password === password]. *)
Definition has_credentials (email password : string) (u : user.t) : Prop :=
  user.email u = email ∧ user.password u = password.

#[global] Instance has_credentials_dec e p u : Decision (has_credentials e p u).
Proof. unfold has_credentials. apply _. Defined.

Definition login_alert (env : session) (u : user.t) : alert.t :=
  {| alert.alert_id := generateId_login env;
     alert.user_id := user.user_id u;
     alert.alert_type := "ACCOUNT_ACCESS";
     alert.severity := "LOW";
     alert.message := ("Successful login at " ++ toLocaleString env)%string;
     alert.is_read := false;
     alert.created_at := date_login env |}.

Definition set_currentUser (u : option user.t) (st : state) : state :=
  {| demoUsers := demoUsers st;
     demoAccounts := demoAccounts st;
     demoTransactions := demoTransactions st;
     demoAlerts := demoAlerts st;
     currentUser := u;
     localStorage := localStorage st;
     toast := toast st |}.

Definition login (env : session) (email password : string) (st : state) : state :=
  match list_find (has_credentials email password) (demoUsers st) with
  | None => showToast "Invalid email or password" "error" st
  | Some (_, user) =>
      let st1 := saveData (set_currentUser (Some user) st) in
      let st2 :=
        with_arrays (demoAccounts st1) (demoTransactions st1)
                    (demoAlerts st1 ++ [login_alert env user])%list st1 in
      showToast "Login successful!" "success" (saveData st2)
  end.

Definition logout (st : state) : state :=
  showToast "Logged out successfully" "info" (saveData (set_currentUser None st)).

(** What the forms of the dashboard submit. *)
Inductive operation :=
| Transfer (receiverAccount : string) (amount : float) (description : string)
| Deposit (currency : string) (amount : float)
| Withdraw (currency : string) (amount : float).

Definition submit (env : browser) (op : operation) (st : state) : state :=
  match op with
  | Transfer receiverAccount amount description =>
      transferMoney env receiverAccount amount description st
  | Deposit currency amount => depositMoney env currency amount st
  | Withdraw currency amount => withdrawMoney env currency amount st
  end.

(** A sequence of submitted forms, each with the values the browser gives it. *)
Fixpoint submit_all (ops : list (browser * operation)) (st : state) : state :=
  match ops with
  | [] => st
  | (env, op) :: ops' => submit_all ops' (submit env op st)
  end.

(** The properties of an account object that no operation assigns. *)
Definition account_static (a : account.t)
  : string * string * string * string * string * string :=
  (account.account_id a, account.user_id a, account.account_number a,
   account.account_type a, account.status a, account.created_at a).

(** The arrays, [currentUser] and [localStorage], without the toast. *)
Definition data (st : state)
  : list user.t * list account.t * list transaction.t * list alert.t
    * option user.t * storage :=
  (demoUsers st, demoAccounts st, demoTransactions st, demoAlerts st,
   currentUser st, localStorage st).

Definition demo_registration : registration :=
  {| generateId_user := "u-2";
     generateId_account := "a-2";
     generateAccountNumber := "SL0000000042";
     generateId_welcome := "l-2";
     date_user := "2026-01-02T00:00:00.000Z";
     date_account := "2026-01-02T00:00:00.000Z";
     date_welcome := "2026-01-02T00:00:00.000Z" |}.

Definition demo_session : session :=
  {| generateId_login := "l-3";
     toLocaleString := "1/4/2026, 9:00:00 AM";
     date_login := "2026-01-04T09:00:00.000Z" |}.

(** ** The alert badge *)

(** [a => a.user_id === currentUser.user_id && !a.is_read]. *)
Definition unread_alert_of (u : user.t) (a : alert.t) : Prop :=
  alert.user_id a = user.user_id u ∧ alert.is_read a = false.

#[global] Instance unread_alert_of_dec u a : Decision (unread_alert_of u a).
Proof. unfold unread_alert_of. apply _. Defined.

(** The number [loadDashboard] writes to [alertCount] and [alertBadge]; the
    dashboard is not drawn without a user. *)
Definition alertCount (st : state) : option nat :=
  match currentUser st with
  | None => None
  | Some u => Some (length (filter (unread_alert_of u) (demoAlerts st)))
  end.

(** [alert.is_read = true]. *)
Definition mark_read (a : alert.t) : alert.t :=
  {| alert.alert_id := alert.alert_id a;
     alert.user_id := alert.user_id a;
     alert.alert_type := alert.alert_type a;
     alert.severity := alert.severity a;
     alert.message := alert.message a;
     alert.is_read := true;
     alert.created_at := alert.created_at a |}.

(** The click handler [loadSecurityAlerts] puts on an unread alert item, for
    the item whose [data-alert-id] is [alertId]. *)
Definition alert_item_click (alertId : string) (st : state) : state :=
  match list_find (λ a, alert.alert_id a = alertId) (demoAlerts st) with
  | None => st
  | Some (i, _) =>
      saveData (with_arrays (demoAccounts st) (demoTransactions st)
                            (alter mark_read i (demoAlerts st)) st)
  end.

End AppDemo.


(** * Properties of [transfer_money] *)

Module SchemaProps.
Import Schema.

(** [x ∈ [a; b; ...]] for an [x] that stands in the list. *)
Ltac in_list := repeat first [apply list_elem_of_here | apply list_elem_of_further].

(** ** Numbers *)

Lemma floor_half (n : Z) : Qfloor (inject_Z n + (1 # 2))%Q = n.
Proof.
  pose proof (Qfloor_le (inject_Z n + (1 # 2))%Q) as H1.
  pose proof (Qlt_floor (inject_Z n + (1 # 2))%Q) as H2.
  assert (inject_Z (Qfloor (inject_Z n + (1 # 2))%Q) < inject_Z (n + 1))%Q as H3.
  { rewrite inject_Z_plus. change (inject_Z 1) with 1%Q. lra. }
  assert (inject_Z n < inject_Z (Qfloor (inject_Z n + (1 # 2))%Q + 1))%Q as H4 by lra.
  rewrite <- Zlt_Qlt in H3, H4. lia.
Qed.

(** A value of scale 2 is stored as it is. *)
Lemma to_decimal_of_decimal (n : decimal) : to_decimal (of_decimal n) = n.
Proof.
  unfold to_decimal, of_decimal, round_half_away.
  destruct (Qle_bool 0 (inject_Z n)).
  - apply floor_half.
  - rewrite <- inject_Z_opp, floor_half. lia.
Qed.

#[global] Instance to_decimal_proper : Proper (Qeq ==> eq) to_decimal.
Proof.
  intros x y H. unfold to_decimal, round_half_away.
  assert (Qle_bool 0 x = Qle_bool 0 y) as ->.
  { apply eq_true_iff_eq. rewrite !Qle_bool_iff. by rewrite H. }
  destruct (Qle_bool 0 y); by rewrite H.
Qed.

(** Rounding keeps the order. *)
Lemma to_decimal_mono (x y : numeric) : (x <= y)%Q → to_decimal x ≤ to_decimal y.
Proof.
  intros H. unfold to_decimal, round_half_away.
  destruct (Qle_bool 0 x) eqn:Hx, (Qle_bool 0 y) eqn:Hy.
  - apply Qfloor_resp_le. lra.
  - apply Qle_bool_iff in Hx.
    assert (¬ (0 <= y)%Q) by (rewrite <- Qle_bool_iff; congruence). lra.
  - assert (¬ (0 <= x)%Q) as Hx' by (rewrite <- Qle_bool_iff; congruence).
    apply Qle_bool_iff in Hy.
    assert (0 ≤ Qfloor (y + (1 # 2))%Q).
    { change 0 with (Qfloor 0). apply Qfloor_resp_le. lra. }
    assert (0 ≤ Qfloor (- x + (1 # 2))%Q).
    { change 0 with (Qfloor 0). apply Qfloor_resp_le. lra. }
    lia.
  - assert (Qfloor (- y + (1 # 2))%Q ≤ Qfloor (- x + (1 # 2))%Q); [|lia].
    apply Qfloor_resp_le. lra.
Qed.

Lemma to_decimal_le (x : numeric) (n : decimal) :
  (x <= of_decimal n)%Q → to_decimal x ≤ n.
Proof. intros H%to_decimal_mono. by rewrite to_decimal_of_decimal in H. Qed.

Lemma to_decimal_ge (x : numeric) (n : decimal) :
  (of_decimal n <= x)%Q → n ≤ to_decimal x.
Proof. intros H%to_decimal_mono. by rewrite to_decimal_of_decimal in H. Qed.

(** Only a positive number is stored as a positive amount. *)
Lemma to_decimal_pos (x : numeric) : 0 < to_decimal x → (0 < x)%Q.
Proof.
  intros H. destruct (Qlt_le_dec 0 x) as [|Hle]; [done|].
  apply (to_decimal_le x 0) in Hle. lia.
Qed.

Lemma of_decimal_le (n m : decimal) : (of_decimal n <= of_decimal m)%Q ↔ n ≤ m.
Proof. unfold of_decimal. by rewrite <- Zle_Qle. Qed.

Lemma of_decimal_add (n m : decimal) :
  (of_decimal n + of_decimal m == of_decimal (n + m)%Z)%Q.
Proof. unfold of_decimal. by rewrite inject_Z_plus. Qed.

Lemma of_decimal_sub (n m : decimal) :
  (of_decimal n - of_decimal m == of_decimal (n - m)%Z)%Q.
Proof.
  unfold of_decimal, Z.sub. rewrite inject_Z_plus, inject_Z_opp. reflexivity.
Qed.

(** A whole number of hundredths moves without rounding. *)
Lemma whole_to_decimal (a : numeric) : whole a → to_decimal a = Qfloor a.
Proof. unfold whole. intros H. rewrite <- H at 1. apply to_decimal_of_decimal. Qed.

Lemma whole_debited (a : numeric) (b : decimal) : whole a → debited a b = b - Qfloor a.
Proof.
  unfold whole, debited. intros H.
  rewrite <- H, of_decimal_sub at 1. apply to_decimal_of_decimal.
Qed.

Lemma whole_credited (a : numeric) (b : decimal) : whole a → credited a b = b + Qfloor a.
Proof.
  unfold whole, credited. intros H.
  rewrite <- H, of_decimal_add at 1. apply to_decimal_of_decimal.
Qed.

Lemma numeric_lt_true (x y : numeric) : numeric_lt x y = true ↔ (x < y)%Q.
Proof.
  unfold numeric_lt. rewrite negb_true_iff, <- not_true_iff_false, Qle_bool_iff.
  split; [apply Qnot_le_lt|apply Qlt_not_le].
Qed.

Lemma numeric_lt_false (x y : numeric) : numeric_lt x y = false ↔ (y <= x)%Q.
Proof. unfold numeric_lt. by rewrite negb_false_iff, Qle_bool_iff. Qed.

Lemma fits_15 (v : decimal) : fits 15 v = true ↔ - 10 ^ 15 < v < 10 ^ 15.
Proof. unfold fits. rewrite Z.ltb_lt. lia. Qed.

(** ** Texts *)

Lemma varchar_Some n t stored :
  varchar n t = Some stored →
  stored = take n t ∧ (length stored ≤ n)%nat ∧ Forall (λ c, c = space) (drop n t).
Proof.
  unfold varchar. case_bool_decide as H; [|done]. intros [= <-].
  split; [done|]. split; [|done]. rewrite length_take. lia.
Qed.

Lemma varchar_short n t : (length t ≤ n)%nat → varchar n t = Some t.
Proof.
  intros H. unfold varchar. rewrite drop_ge, take_ge by done.
  by rewrite bool_decide_eq_true_2.
Qed.

(** ** The statements, one by one *)

Lemma insert_transaction_done new_id now s r a d ref db tid db1 :
  insert_transaction new_id now s r a d ref db = Done tid db1 →
  tid = new_id ∧ 0 < to_decimal a < 10 ^ 15 ∧
  varchar 50 ref = Some (take 50 ref) ∧
  (new_id ∉ (transactions.transaction_id <$> transactions_table db)) ∧
  (take 50 ref ∉ (transactions.reference_number <$> transactions_table db)) ∧
  accounts_table db1 = accounts_table db ∧
  transactions_table db1
  = (transactions_table db
     ++ [ {| transactions.transaction_id := new_id;
             transactions.sender_account_id := Some s;
             transactions.receiver_account_id := Some r;
             transactions.amount := to_decimal a;
             transactions.transaction_type := TRANSFER;
             transactions.status := PENDING;
             transactions.description := Some d;
             transactions.reference_number := take 50 ref;
             transactions.fee_amount := 0;
             transactions.created_at := now;
             transactions.completed_at := None;
             transactions.failure_reason := None |} ])%list.
Proof.
  unfold insert_transaction. intros H.
  destruct (fits 15 (to_decimal a)) eqn:Hf; [|discriminate]. apply fits_15 in Hf.
  cbn [negb] in H.
  destruct (varchar 50 ref) as [stored|] eqn:Hv; [|discriminate].
  pose proof (varchar_Some _ _ _ Hv) as (-> & _).
  destruct (0 <? to_decimal a) eqn:Hp; [|discriminate]. apply Z.ltb_lt in Hp.
  cbn [negb] in H.
  case_bool_decide as Hid; [discriminate|].
  case_bool_decide as Href; [discriminate|].
  inversion H; subst; clear H. cbn.
  split; [done|]. split; [lia|]. done.
Qed.

Lemma insert_transaction_ok new_id now s r a d ref db stored :
  0 < to_decimal a < 10 ^ 15 → varchar 50 ref = Some stored →
  new_id ∉ (transactions.transaction_id <$> transactions_table db) →
  stored ∉ (transactions.reference_number <$> transactions_table db) →
  ∃ db1, insert_transaction new_id now s r a d ref db = Done new_id db1 ∧
         accounts_table db1 = accounts_table db.
Proof.
  intros Ha Hv Hid Href. unfold insert_transaction.
  rewrite (proj2 (fits_15 _)) by lia. cbn [negb]. rewrite Hv.
  rewrite (proj2 (Z.ltb_lt 0 _)) by lia. cbn [negb].
  rewrite !bool_decide_eq_false_2 by done. eauto.
Qed.

Lemma update_balance_done id e now db db' :
  update_balance id e now db = Done () db' →
  transactions_table db' = transactions_table db ∧
  match accounts_table db !! id with
  | None => db' = db
  | Some a =>
      0 ≤ to_decimal (e (accounts.balance a)) < 10 ^ 15 ∧
      accounts_table db' =
        <[id := accounts.set_balance (to_decimal (e (accounts.balance a))) now a]>
          (accounts_table db)
  end.
Proof.
  unfold update_balance. intros H.
  destruct (accounts_table db !! id) as [a|] eqn:Ha.
  - cbv zeta in H.
    destruct (fits 15 _) eqn:Hf; [|discriminate]. apply fits_15 in Hf. cbn [negb] in H.
    destruct (_ <? 0) eqn:Hn; [discriminate|]. apply Z.ltb_ge in Hn.
    inversion H; subst; clear H. cbn. split; [done|]. split; [lia|done].
  - inversion H; subst. done.
Qed.

Lemma update_balance_ok id e now db a :
  accounts_table db !! id = Some a →
  0 ≤ to_decimal (e (accounts.balance a)) < 10 ^ 15 →
  update_balance id e now db
  = Done () (with_accounts
               (<[id := accounts.set_balance (to_decimal (e (accounts.balance a))) now a]>
                  (accounts_table db)) db).
Proof.
  intros Ha Hb. unfold update_balance. rewrite Ha. cbv zeta.
  rewrite (proj2 (fits_15 _)) by lia. cbn [negb].
  by rewrite (proj2 (Z.ltb_ge _ _)) by lia.
Qed.

Lemma update_balance_balance_of id e now db db' k :
  update_balance id e now db = Done () db' →
  is_Some (accounts_table db !! id) →
  balance_of db' k =
    if decide (k = id) then to_decimal (e (balance_of db k)) else balance_of db k.
Proof.
  intros H [a Ha]. apply update_balance_done in H as [_ H]. unfold balance_of.
  rewrite Ha in H. destruct H as [_ ->]. case_decide as Hk.
  - subst k. by rewrite lookup_insert_eq, Ha.
  - by rewrite lookup_insert_ne.
Qed.

Lemma update_balance_nonneg id e now db db' :
  update_balance id e now db = Done () db' →
  balances_nonneg db → balances_nonneg db'.
Proof.
  intros H Hinv. apply update_balance_done in H as [_ H].
  destruct (accounts_table db !! id) as [a|] eqn:Ha.
  - destruct H as [Hb Hacc]. intros k a' Hk. rewrite Hacc in Hk.
    destruct (decide (id = k)) as [->|Hne].
    + rewrite lookup_insert_eq in Hk. inversion Hk; subst. cbn. lia.
    + rewrite lookup_insert_ne in Hk by done. eauto.
  - by subst db'.
Qed.

Lemma complete_transaction_done id now db db' :
  complete_transaction id now db = Done () db' →
  accounts_table db' = accounts_table db ∧
  transactions_table db' =
    (λ t, if decide (transactions.transaction_id t = id)
          then transactions.complete now t else t) <$> transactions_table db.
Proof. unfold complete_transaction. intros H. inversion H; subst. done. Qed.

(** ** The paths through [transfer_money] *)

(** The block ends without an error either at one of the four [RETURN]s of
    the checks, with nothing written, or at the last [RETURN], after the four
    writes. *)
Lemma transfer_money_body_done now new_id s r a d ref db res db' :
  transfer_money_body now new_id s r a d ref db = Done res db' →
  (success res = false ∧ db' = db) ∨
  ∃ sb sl db1 db2 db3,
    select_sender s db = Some (sb, sl) ∧
    exists_active r db = true ∧
    (a <= of_decimal sb)%Q ∧
    fits 15 (select_daily_total s now db) = true ∧
    (of_decimal (select_daily_total s now db) + a <= of_decimal sl)%Q ∧
    insert_transaction new_id now s r a d ref db = Done new_id db1 ∧
    update_balance s (λ balance, of_decimal balance - a)%Q now db1 = Done () db2 ∧
    update_balance r (λ balance, of_decimal balance + a)%Q now db2 = Done () db3 ∧
    complete_transaction new_id now db3 = Done () db' ∧
    res = json_success new_id.
Proof.
  unfold transfer_money_body, perform_transfer, mbind, plpgsql_bind, mret,
    plpgsql_ret, query, into_decimal_15_2.
  intros H.
  destruct (select_sender s db) as [[sb sl]|] eqn:Hs;
    [|inversion H; subst; by left].
  destruct (exists_active r db) eqn:Hr; cbn [negb] in H;
    [|inversion H; subst; by left].
  destruct (numeric_lt (of_decimal sb) a) eqn:Hb; [inversion H; subst; by left|].
  apply numeric_lt_false in Hb.
  destruct (fits 15 (select_daily_total s now db)) eqn:Hfit; [|discriminate].
  destruct (numeric_lt (of_decimal sl) _) eqn:Hl; [inversion H; subst; by left|].
  apply numeric_lt_false in Hl.
  destruct (insert_transaction new_id now s r a d ref db) as [tid db1|] eqn:Hi;
    [|discriminate].
  pose proof (insert_transaction_done _ _ _ _ _ _ _ _ _ _ Hi) as [-> _].
  destruct (update_balance s _ now db1) as [[] db2|] eqn:Hu1; [|discriminate].
  destruct (update_balance r _ now db2) as [[] db3|] eqn:Hu2; [|discriminate].
  destruct (complete_transaction new_id now db3) as [[] db4|] eqn:Hc; [|discriminate].
  inversion H; subst. right.
  exists sb, sl, db1, db2, db3. done.
Qed.

(** What a call returns and leaves behind: a failure and the database as it
    was, or the success object and the database after the four writes. *)
Lemma transfer_money_inv now new_id s r a d ref db :
  let res := transfer_money now new_id s r a d ref db in
  (success res.1 = false ∧ res.2 = db) ∨
  ∃ sb sl db1 db2 db3,
    select_sender s db = Some (sb, sl) ∧
    exists_active r db = true ∧
    (a <= of_decimal sb)%Q ∧
    fits 15 (select_daily_total s now db) = true ∧
    (of_decimal (select_daily_total s now db) + a <= of_decimal sl)%Q ∧
    insert_transaction new_id now s r a d ref db = Done new_id db1 ∧
    update_balance s (λ balance, of_decimal balance - a)%Q now db1 = Done () db2 ∧
    update_balance r (λ balance, of_decimal balance + a)%Q now db2 = Done () db3 ∧
    complete_transaction new_id now db3 = Done () res.2 ∧
    res.1 = json_success new_id.
Proof.
  cbv zeta. unfold transfer_money, exception_when_others.
  destruct (transfer_money_body now new_id s r a d ref db) as [res db'|e] eqn:Hb.
  - cbn. exact (transfer_money_body_done _ _ _ _ _ _ _ _ _ _ Hb).
  - left. done.
Qed.

(** What the two lookups in [accounts] find. *)
Lemma select_sender_Some s db sb sl :
  select_sender s db = Some (sb, sl) ↔
  ∃ a, accounts_table db !! s = Some a ∧ accounts.status a = ACTIVE ∧
       accounts.balance a = sb ∧ accounts.daily_transfer_limit a = sl.
Proof.
  unfold select_sender. split.
  - destruct (accounts_table db !! s) as [a|]; [|done].
    case_decide; [|done]. intros [= <- <-]. by exists a.
  - intros (a & -> & Ha & <- & <-). by rewrite decide_True.
Qed.

Lemma exists_active_true r db :
  exists_active r db = true ↔
  ∃ a, accounts_table db !! r = Some a ∧ accounts.status a = ACTIVE.
Proof.
  unfold exists_active. split.
  - destruct (accounts_table db !! r) as [a|]; [|done].
    intros H%bool_decide_eq_true. by exists a.
  - intros (a & -> & Ha). by apply bool_decide_eq_true.
Qed.



(** The call, check by check. *)
Lemma transfer_money_cases now new_id s r a d ref db :
  transfer_money now new_id s r a d ref db
  = match select_sender s db with
    | None => (json_failure "Sender account not found or inactive", db)
    | Some (sb, sl) =>
        if negb (exists_active r db) then
          (json_failure "Receiver account not found or inactive", db)
        else if numeric_lt (of_decimal sb) a then
          (json_failure "Insufficient balance", db)
        else if fits 15 (select_daily_total s now db) then
          if numeric_lt (of_decimal sl) (of_decimal (select_daily_total s now db) + a)%Q
          then (json_failure "Daily transfer limit exceeded", db)
          else exception_when_others (perform_transfer now new_id s r a d ref) db
        else (json_failure "numeric field overflow", db)
    end.
Proof.
  unfold transfer_money, exception_when_others, transfer_money_body,
    mbind, plpgsql_bind, mret, plpgsql_ret, query, into_decimal_15_2.
  destruct (select_sender s db) as [[sb sl]|]; [|done].
  destruct (exists_active r db); cbn [negb]; [|done].
  destruct (numeric_lt (of_decimal sb) a); [done|].
  destruct (fits 15 _); [|done].
  by destruct (numeric_lt _ _).
Qed.

(** The call up to the daily total, for ACTIVE parties and an amount within
    the balance. *)
Lemma transfer_money_to_daily_total now new_id s r a d ref db sa ra :
  accounts_table db !! s = Some sa → accounts.status sa = ACTIVE →
  accounts_table db !! r = Some ra → accounts.status ra = ACTIVE →
  (a <= of_decimal (accounts.balance sa))%Q →
  transfer_money now new_id s r a d ref db
  = if fits 15 (select_daily_total s now db) then
      if numeric_lt (of_decimal (accounts.daily_transfer_limit sa))
                    (of_decimal (select_daily_total s now db) + a)%Q
      then (json_failure "Daily transfer limit exceeded", db)
      else exception_when_others (perform_transfer now new_id s r a d ref) db
    else (json_failure "numeric field overflow", db).
Proof.
  intros Hs Hsa Hr Hra Hle. rewrite transfer_money_cases.
  rewrite (proj2 (select_sender_Some s db _ _)) by eauto.
  rewrite (proj2 (exists_active_true r db)) by eauto. cbn [negb].
  by rewrite (proj2 (numeric_lt_false _ _) Hle).
Qed.

(** The writes end with the success object or with an error. *)
Lemma perform_transfer_done now new_id s r a d ref db res db' :
  perform_transfer now new_id s r a d ref db = Done res db' → res = json_success new_id.
Proof.
  unfold perform_transfer, mbind, plpgsql_bind, mret, plpgsql_ret. intros H.
  destruct (insert_transaction new_id now s r a d ref db) as [tid db1|] eqn:Hi;
    [|discriminate].
  apply insert_transaction_done in Hi as [-> _].
  repeat case_match; try discriminate. by inversion H.
Qed.

(** ** Failure leaves nothing behind *)

Lemma transfer_money_failed now new_id s r a d ref db :
  success (transfer_money now new_id s r a d ref db).1 = false →
  (transfer_money now new_id s r a d ref db).2 = db.
Proof.
  intros Hfail.
  destruct (transfer_money_inv now new_id s r a d ref db)
    as [[_ Hdb]|(sb & sl & db1 & db2 & db3 & _ & _ & _ & _ & _ & _ & _ & _ & _ & Hres)].
  - exact Hdb.
  - rewrite Hres in Hfail. discriminate.
Qed.

(** In [full_db] a transfer of 10.00 to [fatima] passes the checks, inserts
    the row and debits [ahmed]; the credit then overflows the column. *)
Example partial_writes_before_error :
  let step1 :=
    insert_transaction 900%N 60 ahmed fatima 1000 "gift" (ascii_text "TXN-A") full_db in
  ∃ db1 db2,
    step1 = Done 900%N db1 ∧
    length (transactions_table db1) = 1%nat ∧
    update_balance ahmed (λ balance, of_decimal balance - 1000)%Q 60 db1 = Done () db2 ∧
    balance_of db2 ahmed = 4999000 ∧
    update_balance fatima (λ balance, of_decimal balance + 1000)%Q 60 db2
    = Raised numeric_value_out_of_range.
Proof. cbv zeta. do 2 eexists. repeat split; vm_compute; reflexivity. Qed.

(** C1. Whenever [transfer_money] returns an object whose [success] is
    false, the database is the one the call started from: no row of
    [transactions] was added or changed and no balance was modified, whether
    the call ended at a check or at an error raised by one of the statements
    of the block. *)
Theorem failure_leaves_database_unchanged now new_id s r a d ref db :
  success (transfer_money now new_id s r a d ref db).1 = false →
  (transfer_money now new_id s r a d ref db).2 = db.
Proof.
  intros Hfail. unfold transfer_money, exception_when_others in *.
  destruct (transfer_money_body now new_id s r a d ref db) as [res db'|e] eqn:Hbody;
    cbn [fst snd] in *.
  - (* the block returned: at a check, or after the writes with success *)
    apply transfer_money_body_done in Hbody
      as [[_ Hdb]|(sb & sl & db1 & db2 & db3 & _ & _ & _ & _ & _ & _ & _ & _ & _ & ->)].
    + exact Hdb.
    + discriminate.
  - (* a statement raised: the handler answers on the database of the entry *)
    reflexivity.
Qed.

Lemma failure_leaves_database_unchanged_witness :
  success (transfer_money 60 900%N ahmed fatima 1000 "gift" (ascii_text "TXN-A") full_db).1
    = false ∧
  (transfer_money 60 900%N ahmed fatima 1000 "gift" (ascii_text "TXN-A") full_db).2
    = full_db.
Proof.
  split.
  - vm_compute. reflexivity.
  - apply failure_leaves_database_unchanged. vm_compute. reflexivity.
Defined.

(** ** The balance check *)

(** C5. With an ACTIVE sender and an ACTIVE receiver, a call whose amount is
    larger than the sender's balance returns the failure 'Insufficient
    balance' and leaves the database as it was, whatever the daily limit and
    the day's transfers are. *)
Theorem insufficient_balance_rejected now new_id s r a d ref db sa ra :
  accounts_table db !! s = Some sa → accounts.status sa = ACTIVE →
  accounts_table db !! r = Some ra → accounts.status ra = ACTIVE →
  (of_decimal (accounts.balance sa) < a)%Q →
  transfer_money now new_id s r a d ref db = (json_failure "Insufficient balance", db) ∧
  outcome_of (transfer_money now new_id s r a d ref db).1 = Rejected InsufficientFunds.
Proof.
  intros Hs Hsa Hr Hra Hlt.
  assert (transfer_money now new_id s r a d ref db
          = (json_failure "Insufficient balance", db)) as ->.
  { unfold transfer_money, exception_when_others, transfer_money_body,
      mbind, plpgsql_bind, mret, plpgsql_ret, query.
    rewrite (proj2 (select_sender_Some s db _ _)) by eauto.
    rewrite (proj2 (exists_active_true r db)) by eauto.
    cbn [negb]. by rewrite (proj2 (numeric_lt_true _ _) Hlt). }
  done.
Qed.

Lemma insufficient_balance_rejected_witness :
  transfer_money 60 900%N ahmed fatima 15000 "rent" (ascii_text "TXN-B") poor_db
    = (json_failure "Insufficient balance", poor_db) ∧
  outcome_of (transfer_money 60 900%N ahmed fatima 15000 "rent" (ascii_text "TXN-B")
                poor_db).1
    = Rejected InsufficientFunds.
Proof.
  eapply (insufficient_balance_rejected 60 900%N ahmed fatima 15000 "rent"
            (ascii_text "TXN-B") poor_db);
    vm_compute; reflexivity.
Defined.

(** ** The checks *)

(** The result of a call: the text of a check, the overflow of the day's
    total, or what the writes give under the handler. *)
Lemma transfer_money_result now new_id s r a d ref db :
  let res := transfer_money now new_id s r a d ref db in
  (∃ text,
     text ∈ [ "Sender account not found or inactive";
              "Receiver account not found or inactive";
              "Insufficient balance";
              "numeric field overflow";
              "Daily transfer limit exceeded" ] ∧
     res = (json_failure text, db)) ∨
  (passes_checks now s r a db ∧
   res = exception_when_others (perform_transfer now new_id s r a d ref) db).
Proof.
  cbv zeta. rewrite transfer_money_cases.
  destruct (select_sender s db) as [[sb sl]|] eqn:Hs;
    [|left; eexists; split; [|reflexivity]; in_list].
  destruct (exists_active r db) eqn:Hr; cbn [negb];
    [|left; eexists; split; [|reflexivity]; in_list].
  destruct (numeric_lt (of_decimal sb) a) eqn:Hb;
    [left; eexists; split; [|reflexivity]; in_list|].
  destruct (fits 15 _) eqn:Hfit;
    [|left; eexists; split; [|reflexivity]; in_list].
  destruct (numeric_lt (of_decimal sl) _) eqn:Hl;
    [left; eexists; split; [|reflexivity]; in_list|].
  right. split; [|done].
  apply select_sender_Some in Hs as (sa & Hsa & Hact & <- & <-).
  apply exists_active_true in Hr as (ra & Hra & Hract).
  apply numeric_lt_false in Hb, Hl. apply fits_15 in Hfit.
  by exists sa, ra.
Qed.

Lemma transfer_money_passes_checks now new_id s r a d ref db :
  passes_checks now s r a db →
  transfer_money now new_id s r a d ref db
  = exception_when_others (perform_transfer now new_id s r a d ref) db.
Proof.
  intros (sa & ra & Hsa & Hact & Hra & Hract & Hle & Hfit & Hlim).
  rewrite (transfer_money_to_daily_total _ _ _ _ _ _ _ _ _ _ Hsa Hact Hra Hract Hle).
  rewrite (proj2 (fits_15 _) Hfit).
  by rewrite (proj2 (numeric_lt_false _ _) Hlim).
Qed.

(** ** The daily limit *)






(** At the limit itself the transfer goes through: 900.00 sent, 100.00 asked,
    limit 1000.00; one hundredth more is refused, and so is half a
    hundredth more; the next day the 900.00 no longer count. *)
Example daily_limit_boundary :
  success (transfer_money 60 900%N ahmed fatima 10000 "rent" (ascii_text "TXN-C")
             busy_db).1 = true ∧
  (transfer_money 60 900%N ahmed fatima 10001 "rent" (ascii_text "TXN-C") busy_db).1
    = json_failure "Daily transfer limit exceeded" ∧
  (transfer_money 60 900%N ahmed fatima (20001 # 2) "rent" (ascii_text "TXN-C") busy_db).1
    = json_failure "Daily transfer limit exceeded" ∧
  success (transfer_money 86400 900%N ahmed fatima 15000 "rent" (ascii_text "TXN-C")
             busy_db).1 = true.
Proof. repeat split; vm_compute; reflexivity. Qed.

(** ** Balances after a successful call *)

Lemma balance_of_accounts db db' k :
  accounts_table db' = accounts_table db → balance_of db' k = balance_of db k.
Proof. unfold balance_of. by intros ->. Qed.

Lemma balances_nonneg_accounts db db' :
  accounts_table db' = accounts_table db → balances_nonneg db → balances_nonneg db'.
Proof. unfold balances_nonneg. by intros ->. Qed.

(** A successful call stores a positive amount, which the sender's balance
    covered; it debits the sender's balance, credits the receiver's, and
    touches no other balance. *)
Lemma transfer_money_succeeded now new_id s r a d ref db :
  success (transfer_money now new_id s r a d ref db).1 = true →
  (0 < a)%Q ∧ (a <= of_decimal (balance_of db s))%Q ∧
  ∀ k, balance_of (transfer_money now new_id s r a d ref db).2 k
       = moved s r a k (balance_of db k).
Proof.
  intros Hok.
  destruct (transfer_money_inv now new_id s r a d ref db)
    as [[Hf _]|(sb & sl & db1 & db2 & db3 & Hs & Hr & Hle & _ & _ & Hi & Hu1 & Hu2 & Hc & _)];
    [congruence|].
  apply select_sender_Some in Hs as (sa & Hsa & _ & Hsb & _).
  apply exists_active_true in Hr as (ra & Hra & _).
  apply insert_transaction_done in Hi as (_ & Hpos & _ & _ & _ & Hacc1 & _).
  apply complete_transaction_done in Hc as [Hacc4 _].
  assert (balance_of db s = sb) as Hbs by (unfold balance_of; by rewrite Hsa).
  split; [apply to_decimal_pos; lia|]. split; [by rewrite Hbs|]. intros k.
  assert (is_Some (accounts_table db1 !! s)) as Hs1 by (rewrite Hacc1; eauto).
  assert (is_Some (accounts_table db2 !! r)) as Hr2.
  { apply update_balance_done in Hu1 as [_ Hu1].
    destruct Hs1 as [sa1 Hsa1]. rewrite Hsa1 in Hu1. destruct Hu1 as [_ ->].
    destruct (decide (s = r)) as [->|Hne].
    - rewrite lookup_insert_eq. eauto.
    - rewrite lookup_insert_ne by done. rewrite Hacc1. eauto. }
  rewrite (balance_of_accounts _ _ k Hacc4).
  rewrite (update_balance_balance_of _ _ _ _ _ k Hu2 Hr2).
  rewrite (update_balance_balance_of _ _ _ _ _ k Hu1 Hs1).
  rewrite (balance_of_accounts _ _ k Hacc1).
  unfold moved, debited, credited. by repeat case_decide.
Qed.

Lemma moved_whole s r a k b :
  whole a →
  moved s r a k b
  = b - (if decide (k = s) then Qfloor a else 0) + (if decide (k = r) then Qfloor a else 0).
Proof.
  intros Hw. unfold moved.
  repeat case_decide; rewrite ?whole_credited, ?whole_debited by done; lia.
Qed.




(** C2, on the sample data. The amount of a call is a number of any scale,
    and each statement that stores it rounds on its own: a transfer of 0.005
    from [ahmed] to [fatima] completes, is recorded with the amount 0.01,
    leaves the sender's 50000.00 as they are (49999.995 is stored as
    50000.00) and raises the receiver's balance to 50000.01.  The two
    balances add up to 0.01 more than before. *)
Theorem half_hundredth_is_credited_not_debited :
  let res := transfer_money 60 900%N ahmed fatima (1 # 2) "rounding"
               (ascii_text "TXN-H") sample_db in
  res.1 = json_success 900%N ∧
  (transactions.amount <$> transactions_table res.2) = [1] ∧
  (transactions.status <$> transactions_table res.2) = [COMPLETED] ∧
  balance_of sample_db ahmed = 5000000 ∧
  balance_of sample_db fatima = 5000000 ∧
  balance_of res.2 ahmed = 5000000 ∧
  balance_of res.2 fatima = 5000001 ∧
  total_balance res.2 [ahmed; fatima] = total_balance sample_db [ahmed; fatima] + 1.
Proof. cbv zeta. repeat split; vm_compute; reflexivity. Qed.

(** The other way round: 0.004 asked, nothing moves, and the [INSERT] is
    refused because the stored amount would be 0.00; 100.004 asked, 100.00
    move. *)
Example amounts_below_half_a_hundredth :
  (transfer_money 60 900%N ahmed fatima (4 # 10) "rounding" (ascii_text "TXN-H")
     sample_db).1
    = json_failure (SQLERRM (check_violation "transactions" "transactions_amount_check")) ∧
  balance_of (transfer_money 60 900%N ahmed fatima (100004 # 10) "rounding"
                (ascii_text "TXN-H") sample_db).2 ahmed = 4990000 ∧
  balance_of (transfer_money 60 900%N ahmed fatima (100004 # 10) "rounding"
                (ascii_text "TXN-H") sample_db).2 fatima = 5010000.
Proof. repeat split; vm_compute; reflexivity. Qed.



(** ** Balances stay non-negative *)

Lemma transfer_money_nonneg now new_id s r a d ref db :
  balances_nonneg db →
  balances_nonneg (transfer_money now new_id s r a d ref db).2.
Proof.
  intros Hinv.
  destruct (transfer_money_inv now new_id s r a d ref db)
    as [[_ ->]|(sb & sl & db1 & db2 & db3 & _ & _ & _ & _ & _ & Hi & Hu1 & Hu2 & Hc & _)];
    [done|].
  apply insert_transaction_done in Hi as (_ & _ & _ & _ & _ & Hacc1 & _).
  apply complete_transaction_done in Hc as [Hacc4 _].
  apply (balances_nonneg_accounts _ _ Hacc4).
  apply (update_balance_nonneg _ _ _ _ _ Hu2).
  apply (update_balance_nonneg _ _ _ _ _ Hu1).
  by apply (balances_nonneg_accounts _ _ Hacc1).
Qed.

Lemma run_nonneg cs db : balances_nonneg db → balances_nonneg (run cs db).
Proof.
  revert db. induction cs as [|c cs IH]; intros db Hinv; [done|].
  cbn. apply IH. by apply transfer_money_nonneg.
Qed.

Lemma balance_of_nonneg db k : balances_nonneg db → 0 ≤ balance_of db k.
Proof.
  intros Hinv. unfold balance_of.
  destruct (accounts_table db !! k) eqn:E; [by eapply Hinv|done].
Qed.

(** C3. If every balance is non-negative before a call of [transfer_money],
    every balance is non-negative after it, and so after any sequence of
    calls; and a call whose amount would take the sender's balance below
    zero, or the receiver's, leaves the database exactly as it was. *)
Theorem non_negativity now new_id s r a d ref db :
  balances_nonneg db →
  let db' := (transfer_money now new_id s r a d ref db).2 in
  balances_nonneg db' ∧
  (∀ cs, balances_nonneg (run cs db)) ∧
  ((of_decimal (balance_of db s) - a < 0)%Q → db' = db) ∧
  ((of_decimal (balance_of db r) + a < 0)%Q → db' = db).
Proof.
  intros Hinv db'. split; [by apply transfer_money_nonneg|].
  split; [intros cs; by apply run_nonneg|].
  assert (success (transfer_money now new_id s r a d ref db).1 = true →
          (0 < a)%Q ∧ (a <= of_decimal (balance_of db s))%Q) as Hok.
  { intros H. apply transfer_money_succeeded in H as (? & ? & _). done. }
  pose proof (proj2 (of_decimal_le 0 _) (balance_of_nonneg db r Hinv)) as Hr.
  change (of_decimal 0) with 0%Q in Hr.
  split; intros Hneg; apply transfer_money_failed;
    destruct (success _) eqn:E; try done; destruct (Hok eq_refl); lra.
Qed.

Lemma poor_db_nonneg : balances_nonneg poor_db.
Proof.
  intros id a. unfold poor_db, sample_db, with_accounts. cbn.
  destruct (decide (id = ahmed)) as [->|Hna].
  - rewrite lookup_insert_eq. intros [= <-]. vm_compute. discriminate.
  - rewrite lookup_insert_ne by done. rewrite lookup_insert_ne by done.
    destruct (decide (id = fatima)) as [->|Hnf].
    + rewrite lookup_insert_eq. intros [= <-]. vm_compute. discriminate.
    + rewrite lookup_insert_ne by done. rewrite lookup_empty. discriminate.
Qed.

Lemma non_negativity_witness :
  balances_nonneg poor_db ∧
  balances_nonneg
    (transfer_money 60 900%N ahmed fatima 15000 "rent" (ascii_text "TXN-B") poor_db).2 ∧
  (transfer_money 60 900%N ahmed fatima 15000 "rent" (ascii_text "TXN-B") poor_db).2
    = poor_db.
Proof.
  destruct (non_negativity 60 900%N ahmed fatima 15000 "rent" (ascii_text "TXN-B")
              poor_db poor_db_nonneg)
    as (Hafter & _ & Hsame & _).
  split; [exact poor_db_nonneg|]. split; [exact Hafter|].
  apply Hsame. vm_compute. reflexivity.
Defined.

(** ** Sender and receiver the same account *)

(** C4, on the sample data. The procedure compares the two account ids with
    nothing: a transfer of 150.00 from an account to itself passes every
    check and returns the success object; it is recorded as a COMPLETED row
    whose sender and receiver are the same account and counts towards the
    day's total, and the balance goes down and up again. *)
Theorem self_transfer_completes :
  let res := transfer_money 60 900%N ahmed ahmed 15000 "to myself" (ascii_text "TXN-S")
               sample_db in
  res.1 = json_success 900%N ∧
  outcome_of res.1 = Completed ∧
  balance_of res.2 ahmed = balance_of sample_db ahmed ∧
  (transactions.sender_account_id <$> transactions_table res.2) = [Some ahmed] ∧
  (transactions.receiver_account_id <$> transactions_table res.2) = [Some ahmed] ∧
  (transactions.status <$> transactions_table res.2) = [COMPLETED] ∧
  select_daily_total ahmed 60 res.2 = 15000.
Proof. cbv zeta. repeat split; vm_compute; reflexivity. Qed.

(** Without the balance for it, the same call is turned down for the balance:
    the result depends on the balance. *)
Example self_transfer_without_balance :
  (transfer_money 60 900%N ahmed ahmed 15000 "to myself" (ascii_text "TXN-S") poor_db).1
    = json_failure "Insufficient balance".
Proof. vm_compute. reflexivity. Qed.

(** ** What the result can be *)

Lemma transfer_money_fails_checks now new_id s r a d ref db :
  ¬ passes_checks now s r a db →
  ∃ text,
    text ∈ [ "Sender account not found or inactive";
             "Receiver account not found or inactive";
             "Insufficient balance";
             "numeric field overflow";
             "Daily transfer limit exceeded" ] ∧
    transfer_money now new_id s r a d ref db = (json_failure text, db).
Proof.
  intros Hnot.
  by destruct (transfer_money_result now new_id s r a d ref db) as [H|[H _]].
Qed.

(** ** Amounts that are not positive *)

(** The [INSERT] of an amount that is not positive raises: for the size of
    the amount, else for the length of the reference number, else for the
    [CHECK] of the amount. *)
Lemma insert_transaction_nonpositive new_id now s r a d ref db :
  (a <= 0)%Q →
  insert_transaction new_id now s r a d ref db
  = Raised (if fits 15 (to_decimal a) then
              if varchar 50 ref is Some _ then
                check_violation "transactions" "transactions_amount_check"
              else string_data_right_truncation
            else numeric_value_out_of_range).
Proof.
  intros Ha%(to_decimal_le a 0). unfold insert_transaction.
  destruct (fits 15 _); cbn [negb]; [|done].
  destruct (varchar 50 ref); [|done].
  by rewrite (proj2 (Z.ltb_ge 0 _)) by lia.
Qed.

(** C7, as the procedure has it. A call with an amount that is zero or
    negative never succeeds and leaves the database as it was.  The
    procedure has no check of the amount.  When its checks do not all pass
    (sender ACTIVE, receiver ACTIVE, amount within the balance, the day's
    total within 15 digits and, with the amount, within the limit), the
    result carries the text of the first that fails.  When they pass, the
    [INSERT] raises and the handler answers with the store's message:
    'numeric field overflow' when the amount, rounded to two decimals, has
    more than 15 digits; else 'value too long for type character
    varying(50)' when the column does not accept the reference number; else
    the violation of [CHECK (amount > 0)]. *)
Theorem nonpositive_amount_refused_by_store now new_id s r a d ref db :
  (a <= 0)%Q →
  let res := transfer_money now new_id s r a d ref db in
  success res.1 = false ∧
  res.2 = db ∧
  (¬ passes_checks now s r a db →
   ∃ text,
     text ∈ [ "Sender account not found or inactive";
              "Receiver account not found or inactive";
              "Insufficient balance";
              "numeric field overflow";
              "Daily transfer limit exceeded" ] ∧
     res.1 = json_failure text) ∧
  (passes_checks now s r a db →
   res.1 = json_failure
             (SQLERRM
                (if fits 15 (to_decimal a) then
                   if varchar 50 ref is Some _ then
                     check_violation "transactions" "transactions_amount_check"
                   else string_data_right_truncation
                 else numeric_value_out_of_range))).
Proof.
  intros Ha res.
  assert (success res.1 = false) as Hfail.
  { destruct (success res.1) eqn:E; [|done].
    apply transfer_money_succeeded in E as (? & _). lra. }
  split; [done|]. split; [by apply transfer_money_failed|]. split.
  - intros Hnot.
    destruct (transfer_money_fails_checks now new_id s r a d ref db Hnot)
      as (text & Hin & Hres).
    exists text. split; [done|]. subst res. by rewrite Hres.
  - intros Hc. subst res.
    rewrite (transfer_money_passes_checks _ _ _ _ _ _ _ _ Hc).
    unfold exception_when_others, perform_transfer, mbind, plpgsql_bind.
    by rewrite (insert_transaction_nonpositive new_id now s r a d ref db Ha).
Qed.

Lemma sample_db_passes_checks now a :
  (a <= 5000000)%Q →
  passes_checks now ahmed fatima a sample_db.
Proof.
  intros Ha.
  exists (sample_account 1%N "SL0000000001"), (sample_account 2%N "SL0000000002").
  split; [reflexivity|]. split; [reflexivity|].
  split; [reflexivity|]. split; [reflexivity|].
  split; [exact Ha|].
  split; [vm_compute; split; reflexivity|].
  change (select_daily_total ahmed now sample_db) with 0.
  change (accounts.daily_transfer_limit (sample_account 1%N "SL0000000001"))
    with 10000000.
  unfold of_decimal. change (inject_Z 0) with 0%Q.
  change (inject_Z 10000000) with 10000000%Q. lra.
Qed.

Lemma nonpositive_amount_refused_by_store_witness :
  let res := transfer_money 60 900%N ahmed fatima (- 500) "refund" (ascii_text "TXN-N")
               sample_db in
  success res.1 = false ∧ res.2 = sample_db ∧
  res.1 = json_failure
            (SQLERRM (check_violation "transactions" "transactions_amount_check")).
Proof.
  destruct (nonpositive_amount_refused_by_store
              60 900%N ahmed fatima (- 500) "refund" (ascii_text "TXN-N") sample_db)
    as (Hfail & Hsame & _ & Htext).
  - vm_compute. discriminate.
  - split; [exact Hfail|]. split; [exact Hsame|].
    apply Htext. apply sample_db_passes_checks. vm_compute. discriminate.
Defined.

(** A transfer of 0.00 between the two sample accounts: the result is the
    message of the violated constraint, which stands for no rejection
    reason. *)
Lemma zero_amount_not_InvalidAmount :
  let res := transfer_money 60 900%N ahmed fatima 0 "nothing" (ascii_text "TXN-Z")
               sample_db in
  (0 <= 0)%Q ∧
  res = (json_failure
           (SQLERRM (check_violation "transactions" "transactions_amount_check")),
         sample_db) ∧
  outcome_of res.1
  = Fault (SQLERRM (check_violation "transactions" "transactions_amount_check")) ∧
  outcome_of res.1 ≠ Rejected InvalidAmount.
Proof.
  cbv zeta. split; [vm_compute; discriminate|].
  split; [vm_compute; reflexivity|].
  split; [vm_compute; reflexivity|vm_compute; discriminate].
Qed.

(** With a sender that has no row, a negative amount is turned down for the
    sender; an amount of fifteen nines and more is turned down for its size;
    a reference number of 51 letters for its length. *)
Example nonpositive_amount_other_answers :
  (transfer_money 60 900%N 555%N fatima (- 500) "refund" (ascii_text "TXN-N")
     sample_db).1
    = json_failure "Sender account not found or inactive" ∧
  (transfer_money 60 900%N ahmed fatima (- 1000000000000000) "refund"
     (ascii_text "TXN-N") sample_db).1
    = json_failure "numeric field overflow" ∧
  (transfer_money 60 900%N ahmed fatima (- 500) "refund" (replicate 51 65%N)
     sample_db).1
    = json_failure "value too long for type character varying(50)".
Proof. repeat split; vm_compute; reflexivity. Qed.

(** ** The same reference number twice *)


(** The log after a successful call: the rows it had, then the new row, with
    the amount and the reference number as the columns store them. *)
Lemma transfer_money_log now new_id s r a d ref db :
  success (transfer_money now new_id s r a d ref db).1 = true →
  transactions_table (transfer_money now new_id s r a d ref db).2
  = (transactions_table db
     ++ [completed_transfer now new_id s r (to_decimal a) d (take 50 ref)])%list.
Proof.
  intros Hok.
  destruct (transfer_money_inv now new_id s r a d ref db)
    as [[Hf _]|(sb & sl & db1 & db2 & db3 & _ & _ & _ & _ & _ & Hi & Hu1 & Hu2 & Hc & _)];
    [congruence|].
  apply insert_transaction_done in Hi as (_ & _ & _ & Hid & _ & _ & Ht1).
  apply update_balance_done in Hu1 as [Ht2 _].
  apply update_balance_done in Hu2 as [Ht3 _].
  apply complete_transaction_done in Hc as [_ Ht4].
  rewrite Ht4, Ht3, Ht2, Ht1, fmap_app. cbn. rewrite decide_True by done.
  f_equal. clear -Hid. induction (transactions_table db) as [|t l IH]; [done|].
  rewrite fmap_cons, not_elem_of_cons in Hid. destruct Hid as [Hne Hid].
  cbn. rewrite decide_False by congruence. f_equal. by apply IH.
Qed.

(** What a successful call has found, and found free. *)
Lemma transfer_money_success_facts now new_id s r a d ref db :
  success (transfer_money now new_id s r a d ref db).1 = true →
  0 < to_decimal a < 10 ^ 15 ∧ varchar 50 ref = Some (take 50 ref) ∧
  (new_id ∉ (transactions.transaction_id <$> transactions_table db)) ∧
  (take 50 ref ∉ (transactions.reference_number <$> transactions_table db)) ∧
  is_Some (accounts_table db !! s) ∧ is_Some (accounts_table db !! r).
Proof.
  intros Hok.
  destruct (transfer_money_inv now new_id s r a d ref db)
    as [[Hf _]|(sb & sl & db1 & db2 & db3 & Hs & Hr & _ & _ & _ & Hi & _)];
    [congruence|].
  apply select_sender_Some in Hs as (sa & Hsa & _).
  apply exists_active_true in Hr as (ra & Hra & _).
  apply insert_transaction_done in Hi as (_ & Hpos & Hv & Hid & Href & _).
  repeat split; eauto; lia.
Qed.


(** A call writes to [accounts] only through the two [UPDATE]s of [balance]. *)
Lemma transfer_money_accounts now new_id s r a d ref db id :
  account_holder <$> accounts_table (transfer_money now new_id s r a d ref db).2 !! id
  = account_holder <$> accounts_table db !! id
  ∧ (id ≠ s → id ≠ r →
     accounts_table (transfer_money now new_id s r a d ref db).2 !! id
     = accounts_table db !! id).
Proof.
  destruct (transfer_money_inv now new_id s r a d ref db)
    as [[_ ->]|(sb & sl & db1 & db2 & db3 & _ & _ & _ & _ & _ & Hi & Hu1 & Hu2 & Hc & _)];
    [done|].
  apply insert_transaction_done in Hi as (_ & _ & _ & _ & _ & Hacc1 & _).
  apply complete_transaction_done in Hc as [-> _].
  assert (∀ k e dbx dby,
            update_balance k e now dbx = Done () dby →
            account_holder <$> accounts_table dby !! id
            = account_holder <$> accounts_table dbx !! id
            ∧ (id ≠ k → accounts_table dby !! id = accounts_table dbx !! id)) as Hstep.
  { intros k e dbx dby H. apply update_balance_done in H as [_ H].
    destruct (accounts_table dbx !! k) as [ak|] eqn:Hk; [|by subst].
    destruct H as [_ ->]. destruct (decide (k = id)) as [->|Hne].
    - rewrite lookup_insert_eq, Hk. done.
    - rewrite lookup_insert_ne by done. done. }
  destruct (Hstep _ _ _ _ Hu1) as [H1 H1'], (Hstep _ _ _ _ Hu2) as [H2 H2'].
  rewrite H2, H1, Hacc1. split; [done|].
  intros Hs Hr. rewrite H2', H1' by done. by rewrite Hacc1.
Qed.





(** A reference number of 50 letters and the same followed by spaces are
    stored as the same text: the second call is a retry of the first. *)
Example trailing_spaces_are_cut :
  let ref := replicate 50 65%N in
  let first := transfer_money 60 900%N ahmed fatima 15000 "rent" ref sample_db in
  let second :=
    transfer_money 61 901%N ahmed fatima 15000 "rent" (ref ++ [space; space])%list
      first.2 in
  first.1 = json_success 900%N ∧
  second.1 = json_failure
               (SQLERRM (unique_violation "transactions_reference_number_key")).
Proof. cbv zeta. split; vm_compute; reflexivity. Qed.

(** ** Errors raised by the writes *)

(** The errors the writes can raise. *)
Lemma perform_transfer_raised now new_id s r a d ref db e :
  perform_transfer now new_id s r a d ref db = Raised e →
  e ∈ [ numeric_value_out_of_range;
        string_data_right_truncation;
        check_violation "transactions" "transactions_amount_check";
        unique_violation "transactions_pkey";
        unique_violation "transactions_reference_number_key";
        check_violation "accounts" "accounts_balance_check" ].
Proof.
  unfold perform_transfer, mbind, plpgsql_bind, mret, plpgsql_ret. intros H.
  destruct (insert_transaction new_id now s r a d ref db) as [tid db1|e1] eqn:Hi.
  - destruct (update_balance s _ now db1) as [[] db2|e2] eqn:Hu1.
    + destruct (update_balance r _ now db2) as [[] db3|e3] eqn:Hu2; [done|].
      inversion H; subst e3. unfold update_balance in Hu2.
      repeat case_match; try discriminate; inversion Hu2; in_list.
    + inversion H; subst e2. unfold update_balance in Hu1.
      repeat case_match; try discriminate; inversion Hu1; in_list.
  - inversion H; subst e1. unfold insert_transaction in Hi.
    repeat case_match; try discriminate; inversion Hi; in_list.
Qed.

Lemma update_balance_raised id e now db :
  update_balance id e now db = Raised (check_violation "accounts" "accounts_balance_check") →
  ∃ row, accounts_table db !! id = Some row ∧ to_decimal (e (accounts.balance row)) < 0.
Proof.
  unfold update_balance. intros H.
  destruct (accounts_table db !! id) as [row|]; [|discriminate].
  cbv zeta in H. exists row. split; [done|].
  destruct (negb _); [discriminate|].
  destruct (_ <? 0) eqn:Hn; [|discriminate]. by apply Z.ltb_lt in Hn.
Qed.

(** In a call that runs alone on non-negative balances, neither [UPDATE] of
    [accounts] violates [CHECK (balance >= 0)]. *)
Lemma updates_respect_balance_check now new_id s r a d ref db e :
  passes_checks now s r a db →
  balances_nonneg db →
  perform_transfer now new_id s r a d ref db = Raised e →
  e ≠ check_violation "accounts" "accounts_balance_check".
Proof.
  intros (sa & ra & Hsa & _ & Hra & _ & Hle & _) Hinv Hp ->.
  unfold perform_transfer, mbind, plpgsql_bind, mret, plpgsql_ret in Hp.
  destruct (insert_transaction new_id now s r a d ref db) as [tid db1|e1] eqn:Hi.
  - pose proof (insert_transaction_done _ _ _ _ _ _ _ _ _ _ Hi)
      as (-> & Hpos & _ & _ & _ & Hacc1 & _).
    assert (0 < a)%Q as Hapos by (apply to_decimal_pos; lia).
    destruct (update_balance s _ now db1) as [[] db2|e2] eqn:Hu1.
    + destruct (update_balance r _ now db2) as [[] db3|e3] eqn:Hu2; [done|].
      inversion Hp; subst e3.
      apply update_balance_raised in Hu2 as (row & Hrow & Hneg).
      pose proof (update_balance_nonneg _ _ _ _ _ Hu1
                    (balances_nonneg_accounts _ _ Hacc1 Hinv) _ _ Hrow) as Hb.
      apply (proj2 (of_decimal_le 0 _)) in Hb. change (of_decimal 0) with 0%Q in Hb.
      assert (0 ≤ to_decimal (of_decimal (accounts.balance row) + a)); [|lia].
      apply to_decimal_ge. change (of_decimal 0) with 0%Q. lra.
    + inversion Hp; subst e2.
      apply update_balance_raised in Hu1 as (row & Hrow & Hneg).
      rewrite Hacc1, Hsa in Hrow. injection Hrow as <-.
      assert (0 ≤ to_decimal (of_decimal (accounts.balance sa) - a)); [|lia].
      apply to_decimal_ge. change (of_decimal 0) with 0%Q. lra.
  - inversion Hp; subst e1. unfold insert_transaction in Hi.
    repeat case_match; discriminate.
Qed.

(** X27. In a call that runs alone on non-negative balances, no statement
    violates [CHECK (balance >= 0)]: the result never carries the message of
    that constraint.  The sender's balance covers what the first [UPDATE]
    takes, and the second [UPDATE] adds a positive amount. *)
Theorem balance_check_is_never_violated now new_id s r a d ref db :
  balances_nonneg db →
  error (transfer_money now new_id s r a d ref db).1
  ≠ Some (SQLERRM (check_violation "accounts" "accounts_balance_check")).
Proof.
  intros Hinv.
  destruct (transfer_money_result now new_id s r a d ref db)
    as [(text & Hin & ->)|[Hc ->]].
  - cbn [fst json_failure error].
    repeat (apply elem_of_cons in Hin as [->|Hin]); [discriminate..|].
    by apply elem_of_nil in Hin.
  - unfold exception_when_others.
    destruct (perform_transfer now new_id s r a d ref db) as [res db'|e] eqn:Hp;
      cbn [fst].
    + by apply perform_transfer_done in Hp as ->.
    + pose proof (updates_respect_balance_check _ _ _ _ _ _ _ _ _ Hc Hinv Hp) as Hne.
      apply perform_transfer_raised in Hp.
      repeat (apply elem_of_cons in Hp as [->|Hp]); [discriminate..|done|].
      by apply elem_of_nil in Hp.
Qed.

Lemma balance_check_is_never_violated_witness :
  balances_nonneg poor_db ∧
  error (transfer_money 60 900%N ahmed fatima 15000 "rent" (ascii_text "TXN-B") poor_db).1
  ≠ Some (SQLERRM (check_violation "accounts" "accounts_balance_check")).
Proof.
  split; [exact poor_db_nonneg|].
  apply balance_check_is_never_violated. exact poor_db_nonneg.
Defined.

(** The writes of a transfer of 150.00, run without the checks on a sender
    row that holds 100.00: this is what the first [UPDATE] answers when the
    balance does not cover the amount. *)
Example update_below_zero_violates_the_check :
  perform_transfer 60 900%N ahmed fatima 15000 "rent" (ascii_text "TXN-R") poor_db
  = Raised (check_violation "accounts" "accounts_balance_check").
Proof. vm_compute. reflexivity. Qed.

(** ** When a call goes through, and what it leaves *)

(** X1. On a database whose balances are within the range of the column, a
    call succeeds exactly when: sender and receiver have ACTIVE rows, the
    amount is not above the sender's balance, the day's total has at most 15
    digits and, with the amount, is not above the sender's limit, the amount
    rounded to two decimals is positive, the credit does not overflow the
    receiver's balance, the column accepts the reference number, and the
    reference number as stored and the generated id are new. *)
Theorem transfer_succeeds_iff now new_id s r a d ref db :
  balances_in_range db →
  success (transfer_money now new_id s r a d ref db).1 = true
  ↔ accepted now new_id s r a ref db.
Proof.
  intros Hrange. split.
  - intros Hok.
    destruct (transfer_money_inv now new_id s r a d ref db)
      as [[Hf _]|(sb & sl & db1 & db2 & db3 & Hs & Hr & Hle & Hfit & Hlim & Hi
                  & Hu1 & Hu2 & _)];
      [congruence|].
    apply select_sender_Some in Hs as (sa & Hsa & Hact & <- & <-).
    apply exists_active_true in Hr as (ra & Hra & Hract).
    apply fits_15 in Hfit.
    apply insert_transaction_done in Hi as (_ & Hpos & Hv & Hid & Href & Hacc1 & _).
    split; [by exists sa, ra|]. split; [lia|].
    split; [|split; [done|by exists (take 50 ref)]].
    pose proof (update_balance_done _ _ _ _ _ Hu1) as [_ Hacc2].
    rewrite Hacc1, Hsa in Hacc2. destruct Hacc2 as [_ Hacc2].
    apply update_balance_done in Hu2 as [_ Hu2]. rewrite Hacc2 in Hu2.
    unfold balance_of, credited, debited. rewrite Hsa.
    case_decide as Hsr.
    + subst r. rewrite lookup_insert_eq in Hu2. cbn in Hu2. lia.
    + rewrite lookup_insert_ne in Hu2 by done. rewrite Hra in Hu2 |- *. lia.
  - intros (Hc & Hpos & Hroom & Hid & stored & Hv & Href).
    rewrite (transfer_money_passes_checks _ _ _ _ _ _ _ _ Hc).
    destruct Hc as (sa & ra & Hsa & Hact & Hra & Hract & Hle & _ & _).
    pose proof (Hrange _ _ Hsa) as Hsr. pose proof (Hrange _ _ Hra) as Hrr.
    assert (0 < a)%Q as Hapos by (by apply to_decimal_pos).
    assert (to_decimal a ≤ accounts.balance sa) as Hab by (by apply to_decimal_le).
    assert (0 ≤ debited a (accounts.balance sa) < 10 ^ 15) as Hdeb.
    { unfold debited. split.
      - apply to_decimal_ge. change (of_decimal 0) with 0%Q. lra.
      - assert (to_decimal (of_decimal (accounts.balance sa) - a)
                ≤ accounts.balance sa); [|lia].
        apply to_decimal_le. lra. }
    unfold exception_when_others, perform_transfer, mbind, plpgsql_bind, mret,
      plpgsql_ret.
    destruct (insert_transaction_ok new_id now s r a d ref db stored)
      as (db1 & -> & Hacc1); [lia|done..|].
    rewrite (update_balance_ok s _ now db1 sa ltac:(by rewrite Hacc1) Hdeb).
    unfold balance_of in Hroom. rewrite Hsa, Hra in Hroom.
    destruct (decide (s = r)) as [<-|Hne].
    + rewrite (update_balance_ok s _ now _ (accounts.set_balance
                 (debited a (accounts.balance sa)) now sa)).
      * done.
      * cbn. by rewrite lookup_insert_eq.
      * cbn. split; [|exact Hroom].
        apply to_decimal_ge.
        pose proof (proj2 (of_decimal_le 0 _) (proj1 Hdeb)) as H0.
        change (of_decimal 0) with 0%Q in *. lra.
    + rewrite (update_balance_ok r _ now _ ra).
      * done.
      * cbn. rewrite lookup_insert_ne by done. by rewrite Hacc1.
      * split; [|exact Hroom].
        apply to_decimal_ge.
        pose proof (proj2 (of_decimal_le 0 _) (proj1 Hrr)) as H0.
        change (of_decimal 0) with 0%Q in *. lra.
Qed.

Lemma sample_db_in_range : balances_in_range sample_db.
Proof.
  intros id a. unfold sample_db. cbn.
  destruct (decide (id = ahmed)) as [->|Hna].
  - rewrite lookup_insert_eq. intros [= <-]. vm_compute. split; [discriminate|done].
  - rewrite lookup_insert_ne by done.
    destruct (decide (id = fatima)) as [->|Hnf].
    + rewrite lookup_insert_eq. intros [= <-]. vm_compute. split; [discriminate|done].
    + rewrite lookup_insert_ne by done. rewrite lookup_empty. discriminate.
Qed.

Lemma transfer_succeeds_iff_witness :
  balances_in_range sample_db ∧
  accepted 60 900%N ahmed fatima 15000 (ascii_text "TXN-1") sample_db.
Proof.
  split; [exact sample_db_in_range|].
  apply (transfer_succeeds_iff 60 900%N ahmed fatima 15000 "rent" (ascii_text "TXN-1")
           sample_db).
  - exact sample_db_in_range.
  - vm_compute. reflexivity.
Defined.

(** X2. The log is only appended to: after any call the rows of
    [transactions] are the rows there were, unchanged and in their order,
    followed by one COMPLETED row when the call succeeded, and by nothing
    when it did not.  The row carries the sender, the receiver, the
    description and the time of the call, the amount rounded to two decimals
    and the first 50 characters of the reference number. *)
Theorem log_is_appended now new_id s r a d ref db :
  let res := transfer_money now new_id s r a d ref db in
  transactions_table res.2
  = (transactions_table db
     ++ if success res.1
        then [completed_transfer now new_id s r (to_decimal a) d (take 50 ref)]
        else [])%list.
Proof.
  cbv zeta.
  destruct (success (transfer_money now new_id s r a d ref db).1) eqn:Hres.
  - by apply transfer_money_log.
  - rewrite transfer_money_failed by done. by rewrite app_nil_r.
Qed.

(** ** The constraints of the schema *)

Lemma transfer_money_in_range now new_id s r a d ref db :
  balances_in_range db →
  balances_in_range (transfer_money now new_id s r a d ref db).2.
Proof.
  intros Hinv.
  destruct (transfer_money_inv now new_id s r a d ref db)
    as [[_ ->]|(sb & sl & db1 & db2 & db3 & _ & _ & _ & _ & _ & Hi & Hu1 & Hu2 & Hc & _)];
    [done|].
  apply insert_transaction_done in Hi as (_ & _ & _ & _ & _ & Hacc1 & _).
  apply complete_transaction_done in Hc as [Hacc4 _].
  assert (∀ k e dbx dby,
            update_balance k e now dbx = Done () dby →
            balances_in_range dbx → balances_in_range dby) as Hstep.
  { intros k e dbx dby H Hx.
    pose proof (update_balance_done _ _ _ _ _ H) as [_ Hd].
    destruct (accounts_table dbx !! k) as [ak|] eqn:Hk; [|by subst].
    destruct Hd as [Hfit Hd]. intros id' a' Hid'. rewrite Hd in Hid'.
    destruct (decide (k = id')) as [->|Hne].
    - rewrite lookup_insert_eq in Hid'. by inversion Hid'; subst.
    - rewrite lookup_insert_ne in Hid' by done. eauto. }
  intros id' a'. rewrite Hacc4. apply (Hstep _ _ _ _ Hu2), (Hstep _ _ _ _ Hu1).
  intros id'' a''. rewrite Hacc1. apply Hinv.
Qed.

Lemma transfer_money_is_Some now new_id s r a d ref db id :
  is_Some (accounts_table (transfer_money now new_id s r a d ref db).2 !! id)
  ↔ is_Some (accounts_table db !! id).
Proof.
  destruct (transfer_money_accounts now new_id s r a d ref db id) as [H _].
  rewrite <- !(fmap_is_Some account_holder). by rewrite H.
Qed.

Lemma transfer_money_constraints now new_id s r a d ref db :
  transactions_constraints db →
  transactions_constraints (transfer_money now new_id s r a d ref db).2.
Proof.
  intros (Hids & Hrefs & Hrows).
  destruct (success (transfer_money now new_id s r a d ref db).1) eqn:Hres;
    [|by rewrite transfer_money_failed].
  pose proof (transfer_money_success_facts _ _ _ _ _ _ _ _ Hres)
    as (Ha & Hv & Hid & Href & Hs & Hr).
  apply varchar_Some in Hv as (_ & Hlen & _).
  unfold transactions_constraints.
  rewrite (transfer_money_log _ _ _ _ _ _ _ _ Hres), !fmap_app. cbn.
  split; [|split].
  - apply NoDup_app. split; [done|]. split; [|apply NoDup_singleton].
    intros x Hx ->%list_elem_of_singleton. done.
  - apply NoDup_app. split; [done|]. split; [|apply NoDup_singleton].
    intros x Hx ->%list_elem_of_singleton. done.
  - apply Forall_app. split.
    + eapply Forall_impl; [exact Hrows|]. cbn.
      intros t (? & ? & Hfs & Hfr). split; [done|]. split; [done|].
      split; [destruct (transactions.sender_account_id t)
             |destruct (transactions.receiver_account_id t)];
        cbn in *; try done; by apply transfer_money_is_Some.
    + apply Forall_singleton. cbn.
      split; [done|]. split; [done|]. by rewrite !transfer_money_is_Some.
Qed.

(** X3. The constraints of the schema are kept by every sequence of calls:
    balances stay within [0, 10^13) (in hundredths: below [10 ^ 15]), the
    transaction ids and the reference numbers stay pairwise different, every
    amount is positive and fits its column, every reference number has at
    most 50 characters, and the sender and the receiver of every row have a
    row in [accounts]. *)
Theorem schema_constraints_preserved cs db :
  balances_in_range db → transactions_constraints db →
  balances_in_range (run cs db) ∧ transactions_constraints (run cs db).
Proof.
  revert db. induction cs as [|c cs IH]; intros db Hrange Hcons; [done|].
  cbn. apply IH.
  - by apply transfer_money_in_range.
  - by apply transfer_money_constraints.
Qed.

Lemma sample_db_constraints : transactions_constraints sample_db.
Proof.
  unfold transactions_constraints, sample_db. cbn.
  split; [apply NoDup_nil_2|]. split; [apply NoDup_nil_2|apply Forall_nil_2].
Qed.

Lemma schema_constraints_preserved_witness :
  balances_in_range (run three_calls sample_db) ∧
  transactions_constraints (run three_calls sample_db) ∧
  length (transactions_table (run three_calls sample_db)) = 2%nat.
Proof.
  destruct (schema_constraints_preserved three_calls sample_db
              sample_db_in_range sample_db_constraints) as [Hr Hc].
  split; [exact Hr|]. split; [exact Hc|]. vm_compute. reflexivity.
Defined.

(** X4. No sequence of calls creates or deletes an account or changes its
    owner, number, type, currency, status, daily limit or creation time:
    only [balance] and [updated_at] are ever assigned. *)
Theorem accounts_keep_their_holder cs db id :
  account_holder <$> accounts_table (run cs db) !! id
  = account_holder <$> accounts_table db !! id.
Proof.
  revert db. induction cs as [|c cs IH]; intros db; [done|].
  cbn. rewrite IH. unfold execute.
  by destruct (transfer_money_accounts (call_now c) (call_new_id c) (call_sender c)
                 (call_receiver c) (call_amount c) (call_description c)
                 (call_reference c) db id) as [-> _].
Qed.

(** ** The day's total and the daily limit *)

Lemma foldr_add_init {A} (f : A → Z) (x : Z) (l : list A) :
  foldr (λ t acc, f t + acc) x l = foldr (λ t acc, f t + acc) 0 l + x.
Proof. induction l as [|t l IH]; cbn; [lia|]. rewrite IH. lia. Qed.

Lemma select_daily_total_app k t db db' l :
  transactions_table db' = (transactions_table db ++ l)%list →
  select_daily_total k t db'
  = select_daily_total k t db
    + foldr (λ x acc, transactions.amount x + acc) 0
        (filter (λ x, counts_today k t x = true) l).
Proof.
  unfold select_daily_total. intros ->.
  rewrite filter_app, foldr_app, foldr_add_init. lia.
Qed.

Lemma select_daily_total_same_day k t t' db :
  DATE t = DATE t' → select_daily_total k t db = select_daily_total k t' db.
Proof.
  intros H. unfold select_daily_total. f_equal.
  apply list_filter_iff. intros x. unfold counts_today. by rewrite H.
Qed.

(** What a call adds to a day's total. *)
Lemma select_daily_total_after now new_id s r a d ref db k t :
  let res := transfer_money now new_id s r a d ref db in
  select_daily_total k t res.2
  = select_daily_total k t db
    + (if success res.1 && bool_decide (k = s) && (DATE now =? DATE t)
       then to_decimal a else 0).
Proof.
  cbv zeta.
  destruct (success (transfer_money now new_id s r a d ref db).1) eqn:Hres.
  - rewrite (select_daily_total_app k t db _ _ (transfer_money_log _ _ _ _ _ _ _ _ Hres)).
    f_equal. rewrite filter_cons, filter_nil. unfold counts_today.
    cbn [completed_transfer transactions.sender_account_id transactions.created_at
         transactions.status transactions.amount andb].
    rewrite (bool_decide_eq_true_2 (COMPLETED = COMPLETED)) by done.
    destruct (decide (k = s)) as [->|Hne].
    + rewrite (bool_decide_eq_true_2 (Some s = Some s)),
        (bool_decide_eq_true_2 (s = s)) by done.
      cbn [andb]. rewrite andb_true_r.
      destruct (DATE now =? DATE t); [|by rewrite decide_False].
      rewrite decide_True by done. cbn. lia.
    + rewrite (bool_decide_eq_false_2 (Some s = Some k)),
        (bool_decide_eq_false_2 (k = s)) by congruence.
      cbn [andb]. by rewrite decide_False.
  - rewrite transfer_money_failed by done. cbn. lia.
Qed.

(** X5. A successful call counts once: it raises the sender's total for the
    day of the call by exactly the amount as stored, that is the amount
    rounded to two decimals, and changes neither the total of another
    account nor the total of another day. *)
Theorem success_counts_towards_the_day now new_id s r a d ref db :
  success (transfer_money now new_id s r a d ref db).1 = true →
  let db' := (transfer_money now new_id s r a d ref db).2 in
  select_daily_total s now db' = select_daily_total s now db + to_decimal a ∧
  (∀ k t, k ≠ s → select_daily_total k t db' = select_daily_total k t db) ∧
  (∀ k t, DATE t ≠ DATE now → select_daily_total k t db' = select_daily_total k t db).
Proof.
  intros Hok db'. subst db'.
  split; [|split]; intros;
    pose proof (select_daily_total_after now new_id s r a d ref db) as H';
    cbv zeta in H'; rewrite H', Hok; cbn [andb].
  - by rewrite bool_decide_eq_true_2, Z.eqb_refl.
  - rewrite bool_decide_eq_false_2 by done. cbn. lia.
  - rewrite (proj2 (Z.eqb_neq _ _)) by congruence. rewrite andb_false_r. lia.
Qed.

Lemma success_counts_towards_the_day_witness :
  select_daily_total ahmed 60
    (transfer_money 60 900%N ahmed fatima (19999 # 2) "rent" (ascii_text "TXN-C")
       busy_db).2
  = 90000 + 10000.
Proof.
  destruct (success_counts_towards_the_day 60 900%N ahmed fatima (19999 # 2) "rent"
              (ascii_text "TXN-C") busy_db) as [H _].
  - vm_compute. reflexivity.
  - exact H.
Defined.

(** X6. The daily limit is a budget: if what an account has sent on a day
    is within its limit, it is still within its limit after any sequence of
    calls, whatever their senders, amounts and times. *)
Theorem daily_limit_is_kept cs db k ak t :
  accounts_table db !! k = Some ak →
  select_daily_total k t db ≤ accounts.daily_transfer_limit ak →
  select_daily_total k t (run cs db) ≤ accounts.daily_transfer_limit ak.
Proof.
  intros Hk. remember (accounts.daily_transfer_limit ak) as L eqn:HL.
  assert (accounts.daily_transfer_limit <$> accounts_table db !! k = Some L) as Hlim
    by (rewrite Hk; cbn; by rewrite HL).
  clear ak Hk HL. revert db Hlim.
  induction cs as [|c cs IH]; intros db Hlim Hle; [done|].
  cbn. unfold execute.
  set (now := call_now c). set (s := call_sender c). set (a := call_amount c).
  set (res := transfer_money now (call_new_id c) s (call_receiver c) a
                (call_description c) (call_reference c) db).
  apply IH.
  - destruct (transfer_money_accounts now (call_new_id c) s (call_receiver c) a
                (call_description c) (call_reference c) db k) as [Hh _].
    fold res in Hh.
    destruct (accounts_table res.2 !! k) as [a2|], (accounts_table db !! k) as [a1|];
      cbn in *; try done.
    injection Hh as _ _ _ _ _ Hl _. by rewrite Hl.
  - pose proof (select_daily_total_after now (call_new_id c) s (call_receiver c) a
                  (call_description c) (call_reference c) db k t) as Hd.
    cbv zeta in Hd. fold res in Hd. rewrite Hd.
    destruct (success res.1) eqn:Hres; cbn; [|lia].
    case_bool_decide as Hks; cbn; [subst k|lia].
    destruct (DATE now =? DATE t) eqn:Hday; [|lia]. apply Z.eqb_eq in Hday.
    destruct (transfer_money_inv now (call_new_id c) s (call_receiver c) a
                (call_description c) (call_reference c) db)
      as [[Hf _]|(sb & sl & db1 & db2 & db3 & Hs & _ & _ & _ & Hl & _)];
      [fold res in Hf; congruence|].
    apply select_sender_Some in Hs as (sa & Hsa & _ & _ & Hsl).
    rewrite Hsa in Hlim. cbn in Hlim. injection Hlim as Hlim.
    rewrite (select_daily_total_same_day s now t db Hday) in Hl.
    assert (to_decimal a ≤ L - select_daily_total s t db); [|lia].
    apply to_decimal_le. rewrite <- of_decimal_sub. subst sl L. lra.
Qed.

Lemma daily_limit_is_kept_witness :
  select_daily_total ahmed 60 (run three_calls busy_db) ≤ 100000.
Proof.
  apply (daily_limit_is_kept three_calls busy_db ahmed
           {| accounts.user_id := 1%N;
              accounts.account_number := "SL0000000001";
              accounts.balance := 50000;
              accounts.account_type := SAVINGS;
              accounts.currency := "SLSH";
              accounts.status := ACTIVE;
              accounts.daily_transfer_limit := 100000;
              accounts.created_at := 0;
              accounts.updated_at := 30 |} 60).
  - vm_compute. reflexivity.
  - vm_compute. discriminate.
Defined.

(** ** Balances against the log *)

Lemma net_flow_app k db db' l :
  transactions_table db' = (transactions_table db ++ l)%list →
  net_flow k db' = net_flow k db + foldr (λ t acc, signed_amount k t + acc) 0 l.
Proof.
  unfold net_flow. intros ->. rewrite foldr_app, foldr_add_init. lia.
Qed.

(** X7. Balances and log agree for amounts of scale 2: over any sequence of
    calls whose amounts are whole numbers of hundredths, the balance of an
    account changes by exactly what the COMPLETED rows added to the log
    credit to it minus what they debit from it. *)
Theorem balance_follows_the_log cs db k :
  Forall (λ c, whole (call_amount c)) cs →
  balance_of (run cs db) k - net_flow k (run cs db)
  = balance_of db k - net_flow k db.
Proof.
  intros Hw. revert db.
  induction Hw as [|[now new_id s r a d ref] cs Hwa _ IH]; intros db; [done|].
  cbn in Hwa. cbn. rewrite IH. unfold execute. cbn.
  destruct (success (transfer_money now new_id s r a d ref db).1) eqn:Hres.
  - pose proof (transfer_money_succeeded _ _ _ _ _ _ _ _ Hres) as (_ & _ & Hbal).
    rewrite Hbal, moved_whole by done.
    rewrite (net_flow_app k db _ _ (transfer_money_log _ _ _ _ _ _ _ _ Hres)).
    rewrite (whole_to_decimal a Hwa).
    cbn. unfold signed_amount. cbn.
    repeat case_decide; simplify_eq; lia.
  - by rewrite transfer_money_failed.
Qed.

Lemma three_calls_whole : Forall (λ c, whole (call_amount c)) three_calls.
Proof.
  repeat (apply Forall_cons; split; [vm_compute; reflexivity|]). apply Forall_nil_2.
Qed.

Lemma balance_follows_the_log_witness :
  balance_of (run three_calls sample_db) ahmed - net_flow ahmed (run three_calls sample_db)
  = 5000000.
Proof.
  rewrite (balance_follows_the_log three_calls sample_db ahmed three_calls_whole).
  vm_compute. reflexivity.
Defined.

(** Without the hypothesis the two part: after the transfer of 0.005 the
    log credits [fatima] with 0.01 and debits [ahmed] with 0.01, while only
    [fatima]'s balance has moved. *)
Example balance_leaves_the_log :
  let db' := (transfer_money 60 900%N ahmed fatima (1 # 2) "rounding"
                (ascii_text "TXN-H") sample_db).2 in
  balance_of db' ahmed - net_flow ahmed db' = 5000001 ∧
  balance_of sample_db ahmed - net_flow ahmed sample_db = 5000000.
Proof. cbv zeta. split; vm_compute; reflexivity. Qed.

(** X8. A transfer of a whole number of hundredths and the transfer of the
    same amount back, both successful, leave every balance as it was. *)
Theorem transfer_and_back now1 id1 ref1 d1 now2 id2 ref2 d2 s r a db :
  whole a →
  success (transfer_money now1 id1 s r a d1 ref1 db).1 = true →
  success (transfer_money now2 id2 r s a d2 ref2
             (transfer_money now1 id1 s r a d1 ref1 db).2).1 = true →
  ∀ k, balance_of (transfer_money now2 id2 r s a d2 ref2
                     (transfer_money now1 id1 s r a d1 ref1 db).2).2 k
       = balance_of db k.
Proof.
  intros Hw H1 H2 k.
  apply transfer_money_succeeded in H2 as (_ & _ & ->).
  apply transfer_money_succeeded in H1 as (_ & _ & ->).
  rewrite !moved_whole by done.
  repeat case_decide; lia.
Qed.

Lemma transfer_and_back_witness :
  balance_of (transfer_money 70 901%N fatima ahmed 15000 "back" (ascii_text "TXN-2")
                (transfer_money 60 900%N ahmed fatima 15000 "rent" (ascii_text "TXN-1")
                   sample_db).2).2
             ahmed
  = balance_of sample_db ahmed.
Proof.
  apply (transfer_and_back 60 900%N (ascii_text "TXN-1") "rent" 70 901%N
           (ascii_text "TXN-2") "back" ahmed fatima 15000 sample_db);
    vm_compute; reflexivity.
Defined.

(** ** Accounts that are not ACTIVE *)

(** X9. An account that has no row, or whose status is FROZEN or CLOSED,
    cannot send: the call is answered 'Sender account not found or inactive'
    and nothing is written, whatever the receiver, the amount and the
    reference number are. *)
Theorem sender_must_be_active now new_id s r a d ref db :
  (∀ sa, accounts_table db !! s = Some sa → accounts.status sa ≠ ACTIVE) →
  transfer_money now new_id s r a d ref db
  = (json_failure "Sender account not found or inactive", db).
Proof.
  intros Hs. unfold transfer_money, exception_when_others, transfer_money_body,
    mbind, plpgsql_bind, mret, plpgsql_ret, query, select_sender.
  destruct (accounts_table db !! s) as [sa|] eqn:Hsa; [|done].
  rewrite decide_False by (by apply Hs). done.
Qed.

Lemma sender_must_be_active_witness :
  transfer_money 60 900%N ahmed fatima 15000 "rent" (ascii_text "TXN-1")
    (frozen_db ahmed FROZEN)
  = (json_failure "Sender account not found or inactive", frozen_db ahmed FROZEN).
Proof.
  apply sender_must_be_active. intros sa. vm_compute. intros [= <-]. discriminate.
Defined.

(** X10. Nor can it receive: with an ACTIVE sender, a receiver that has no
    row or is FROZEN or CLOSED is answered 'Receiver account not found or
    inactive', and nothing is written. *)
Theorem receiver_must_be_active now new_id s r a d ref db sa :
  accounts_table db !! s = Some sa → accounts.status sa = ACTIVE →
  (∀ ra, accounts_table db !! r = Some ra → accounts.status ra ≠ ACTIVE) →
  transfer_money now new_id s r a d ref db
  = (json_failure "Receiver account not found or inactive", db).
Proof.
  intros Hsa Hact Hr. unfold transfer_money, exception_when_others, transfer_money_body,
    mbind, plpgsql_bind, mret, plpgsql_ret, query.
  rewrite (proj2 (select_sender_Some s db _ _)) by eauto.
  unfold exists_active. destruct (accounts_table db !! r) as [ra|] eqn:Hra; [|done].
  rewrite bool_decide_eq_false_2 by (by apply Hr). done.
Qed.

Lemma receiver_must_be_active_witness :
  transfer_money 60 900%N ahmed fatima 15000 "rent" (ascii_text "TXN-1")
    (frozen_db fatima CLOSED)
  = (json_failure "Receiver account not found or inactive", frozen_db fatima CLOSED).
Proof.
  eapply (receiver_must_be_active 60 900%N ahmed fatima 15000 "rent" (ascii_text "TXN-1")
            (frozen_db fatima CLOSED)).
  - vm_compute. reflexivity.
  - reflexivity.
  - intros ra. vm_compute. intros [= <-]. discriminate.
Defined.

(** ** The rows a call touches *)

(** X22. A call leaves every account other than the sender and the receiver
    exactly as it was, [updated_at] included; after a successful call the
    trigger has stamped the rows of the sender and of the receiver with the
    time of the call. *)
Theorem only_the_parties_are_touched now new_id s r a d ref db :
  let res := transfer_money now new_id s r a d ref db in
  (∀ id, id ≠ s → id ≠ r → accounts_table res.2 !! id = accounts_table db !! id) ∧
  (success res.1 = true →
   accounts.updated_at <$> accounts_table res.2 !! s = Some now ∧
   accounts.updated_at <$> accounts_table res.2 !! r = Some now).
Proof.
  cbv zeta. split.
  - intros id Hs Hr.
    by destruct (transfer_money_accounts now new_id s r a d ref db id) as [_ ->].
  - intros Hok.
    destruct (transfer_money_inv now new_id s r a d ref db)
      as [[Hf _]|(sb & sl & db1 & db2 & db3 & Hs & Hr & _ & _ & _ & Hi & Hu1 & Hu2
                  & Hc & _)];
      [congruence|].
    apply select_sender_Some in Hs as (sa & Hsa & _).
    apply exists_active_true in Hr as (ra & Hra & _).
    apply insert_transaction_done in Hi as (_ & _ & _ & _ & _ & Hacc1 & _).
    apply complete_transaction_done in Hc as [-> _].
    apply update_balance_done in Hu1 as [_ Hu1]. rewrite Hacc1, Hsa in Hu1.
    destruct Hu1 as [_ Hacc2].
    apply update_balance_done in Hu2 as [_ Hu2].
    destruct (accounts_table db2 !! r) as [ra2|] eqn:Hr2.
    + destruct Hu2 as [_ ->]. rewrite lookup_insert_eq. split; [|done].
      destruct (decide (r = s)) as [->|Hne]; [by rewrite lookup_insert_eq|].
      rewrite lookup_insert_ne by done. by rewrite Hacc2, lookup_insert_eq.
    + exfalso. rewrite Hacc2 in Hr2. destruct (decide (s = r)) as [->|Hne].
      * by rewrite lookup_insert_eq in Hr2.
      * rewrite lookup_insert_ne in Hr2 by done. congruence.
Qed.

End SchemaProps.

(** * Properties of [transferMoney] *)

Module AppDemoProps.
Import AppDemo.

(** ** Comparison of numbers *)

(** On binary64 values, [x <= y] excludes [y < x]. *)
Lemma SFleb_not_SFltb x y :
  SFleb x y = true → SFltb y x = false.
Proof.
  unfold SFleb, SFltb.
  destruct x as [sx|sx| |sx mx ex], y as [sy|sy| |sy my ey]; cbn;
    try done; try (by destruct sx); try (by destruct sy);
    try (by destruct sx, sy).
  destruct sx, sy; try done;
    rewrite (Z.compare_antisym ex ey);
    change (Pos.compare_cont Eq my mx) with (Pos.compare my mx);
    change (Pos.compare_cont Eq mx my) with (Pos.compare mx my);
    rewrite (Pos.compare_antisym mx my);
    destruct (ex ?= ey), (Pos.compare mx my); done.
Qed.

Lemma leb_not_ltb (x y : float) :
  PrimFloat.leb x y = true → PrimFloat.ltb y x = false.
Proof.
  rewrite leb_spec, ltb_spec. apply SFleb_not_SFltb.
Qed.

(** ** The successful path *)

Lemma alter_keeps_balance_usd (f : float → float) i (l : list account.t) :
  account.balance_usd <$>
    alter (λ a, account.set_balance_slsh (f (account.balance_slsh a)) a) i l
  = account.balance_usd <$> l.
Proof.
  revert i. induction l as [|a l IH]; intros [|i]; cbn; [done..|].
  f_equal. apply IH.
Qed.

(** C10. With a user logged in, a first ACTIVE account of that user
    ([senderAccount], at index [i]), a first ACTIVE account with the given
    number ([receiverAcc], at index [j]) and
    [amount <= senderAccount.balance_slsh], [transferMoney] completes: it
    subtracts the amount from the sender's SLSH balance and adds it to the
    receiver's (to the same object when [i = j]), leaves every other account
    and every USD balance as it was, pushes one transaction whose status is
    'COMPLETED' and whose currency is 'SLSH', saves the arrays as JSON, and
    shows the success toast.  Nothing is asked of the sign of the amount, of a daily limit (the
    objects have none) or of the two accounts being different. *)
Theorem transferMoney_completes env receiverAccount amount description st
    u i senderAccount j receiverAcc :
  currentUser st = Some u →
  list_find (active_account_of u) (demoAccounts st) = Some (i, senderAccount) →
  list_find (active_account_numbered receiverAccount) (demoAccounts st)
    = Some (j, receiverAcc) →
  PrimFloat.leb amount (account.balance_slsh senderAccount) = true →
  let st' := transferMoney env receiverAccount amount description st in
  demoAccounts st' !! i
    = Some (if decide (i = j) then credit amount (debit amount senderAccount)
            else debit amount senderAccount) ∧
  demoAccounts st' !! j
    = Some (if decide (i = j) then credit amount (debit amount senderAccount)
            else credit amount receiverAcc) ∧
  (∀ k, k ≠ i → k ≠ j → demoAccounts st' !! k = demoAccounts st !! k) ∧
  length (demoAccounts st') = length (demoAccounts st) ∧
  account.balance_usd <$> demoAccounts st' = account.balance_usd <$> demoAccounts st ∧
  demoTransactions st'
    = (demoTransactions st
       ++ [transfer_record env senderAccount receiverAcc amount description])%list ∧
  transaction.status (transfer_record env senderAccount receiverAcc amount description)
    = "COMPLETED" ∧
  transaction.currency (transfer_record env senderAccount receiverAcc amount description)
    = "SLSH" ∧
  stored_demoAccounts (localStorage st') = json_account <$> demoAccounts st' ∧
  stored_demoTransactions (localStorage st') = json_transaction <$> demoTransactions st' ∧
  toast st'
    = Some (("Transfer successful! Reference: TXN" ++ random_base36 env)%string, "success").
Proof.
  intros Hu Hs Hr Hle st'.
  assert (demoAccounts st'
          = alter (credit amount) j (alter (debit amount) i (demoAccounts st))
          ∧ demoTransactions st'
            = (demoTransactions st
               ++ [transfer_record env senderAccount receiverAcc amount description])%list
          ∧ localStorage st'
            = {| stored_demoUsers := demoUsers st;
                 stored_demoAccounts := json_account <$> demoAccounts st';
                 stored_demoTransactions := json_transaction <$> demoTransactions st';
                 stored_demoAlerts := demoAlerts st';
                 stored_currentUser := currentUser st |}
          ∧ toast st'
            = Some (("Transfer successful! Reference: TXN" ++ random_base36 env)%string,
                    "success")) as (Hacc & Htx & Hstore & Htoast).
  { subst st'. unfold transferMoney.
    rewrite Hu, Hs, Hr, (leb_not_ltb _ _ Hle). cbn. rewrite Hu. repeat split. }
  apply list_find_Some in Hs as (Hi & _ & _).
  apply list_find_Some in Hr as (Hj & _ & _).
  rewrite Hstore, Htx, Htoast, Hacc. cbn.
  split.
  { case_decide as Hij.
    - subst j. by rewrite !list_lookup_alter_eq, Hi.
    - rewrite list_lookup_alter_ne by done. by rewrite list_lookup_alter_eq, Hi. }
  split.
  { case_decide as Hij.
    - subst j. by rewrite !list_lookup_alter_eq, Hi.
    - rewrite list_lookup_alter_eq, list_lookup_alter_ne by done. by rewrite Hj. }
  split.
  { intros k Hki Hkj. by rewrite !list_lookup_alter_ne by done. }
  split; [by rewrite !length_alter|].
  split; [|done].
  unfold credit, debit.
  by rewrite (alter_keeps_balance_usd (λ b, PrimFloat.add b amount)),
     (alter_keeps_balance_usd (λ b, PrimFloat.sub b amount)).
Qed.

Lemma transferMoney_completes_witness :
  let st' := transferMoney demo_browser "SL0000000042" 20000%float "rent" demo_state in
  account.balance_slsh <$> demoAccounts st' !! 0%nat = Some 80000%float ∧
  account.balance_slsh <$> demoAccounts st' !! 1%nat = Some 70000%float ∧
  account.balance_usd <$> demoAccounts st' = [50%float; 10%float] ∧
  transaction.status <$> demoTransactions st' = ["COMPLETED"] ∧
  toast st' = Some ("Transfer successful! Reference: TXNK3J9X0QZ1", "success").
Proof.
  destruct (transferMoney_completes demo_browser "SL0000000042" 20000%float "rent"
              demo_state admin_user 0%nat admin_account 1%nat registered_account)
    as (Hi & Hj & _ & _ & Husd & Htx & _ & _ & _ & _ & Htoast).
  - reflexivity.
  - vm_compute. reflexivity.
  - vm_compute. reflexivity.
  - vm_compute. reflexivity.
  - cbv zeta. rewrite Hi, Hj, Husd, Htx, Htoast.
    repeat split; vm_compute; reflexivity.
Defined.

(** A negative amount goes through and moves money the other way. *)
Example transferMoney_negative_amount :
  let st' := transferMoney demo_browser "SL0000000042" (-500)%float "refund" demo_state in
  account.balance_slsh <$> demoAccounts st' = [100500%float; 49500%float] ∧
  transaction.status <$> demoTransactions st' = ["COMPLETED"].
Proof. cbv zeta. split; vm_compute; reflexivity. Qed.

(** So does a transfer to the sender's own account number: [find] returns the
    same object twice. *)
Example transferMoney_to_self :
  let st' := transferMoney demo_browser "SL1234567890" 20000%float "to myself" demo_state in
  account.balance_slsh <$> demoAccounts st' = [100000%float; 50000%float] ∧
  transaction.sender_account_id <$> demoTransactions st' = [Some "a-1"] ∧
  transaction.receiver_account_id <$> demoTransactions st' = [Some "a-1"] ∧
  transaction.status <$> demoTransactions st' = ["COMPLETED"].
Proof. cbv zeta. repeat split; vm_compute; reflexivity. Qed.

(** An amount above the sender's SLSH balance is the one thing refused; the
    USD balance plays no part. *)
Example transferMoney_insufficient :
  transferMoney demo_browser "SL0000000042" 100001%float "rent" demo_state
  = showToast "Insufficient balance" "error" demo_state.
Proof. vm_compute. reflexivity. Qed.

(** What is saved is the JSON text: a deposit whose amount is NaN (the
    amount field left empty) leaves NaN in memory and [null] in
    [localStorage]; the other account is saved with its numbers. *)
Example saveData_of_NaN :
  let st' := depositMoney demo_browser "SLSH" nan demo_state in
  PrimFloat.is_nan <$> (account.balance_slsh <$> demoAccounts st' !! 0%nat) = Some true ∧
  saved_account.balance_slsh <$> stored_demoAccounts (localStorage st') !! 0%nat
    = Some None ∧
  saved_account.balance_slsh <$> stored_demoAccounts (localStorage st') !! 1%nat
    = Some (Some 50000%float) ∧
  saved_transaction.amount <$> stored_demoTransactions (localStorage st') = [None].
Proof. cbv zeta. repeat split; vm_compute; reflexivity. Qed.

(** ** What every operation keeps *)

Lemma alter_keeps_static (f : account.t → account.t) i (l : list account.t) :
  (∀ a, account_static (f a) = account_static a) →
  account_static <$> alter f i l = account_static <$> l.
Proof.
  intros Hf. revert i. induction l as [|a l IH]; intros [|i]; cbn; [done..| |].
  - by rewrite Hf.
  - by rewrite IH.
Qed.

Lemma deposit_to_static currency amount a :
  account_static (deposit_to currency amount a) = account_static a.
Proof. unfold deposit_to. by case_decide. Qed.

Lemma withdraw_from_static currency amount a :
  account_static (withdraw_from currency amount a) = account_static a.
Proof. unfold withdraw_from. by case_decide. Qed.

(** One submitted form either changes nothing but the toast, or is carried
    out: the accounts are altered in place, one COMPLETED transaction is
    pushed, and the arrays are saved. *)
Lemma submit_cases env op st :
  let st' := submit env op st in
  data st' = data st ∨
  (∃ tx msg,
     demoTransactions st' = (demoTransactions st ++ [tx])%list ∧
     transaction.status tx = "COMPLETED" ∧
     toast st' = Some (msg, "success") ∧
     account_static <$> demoAccounts st' = account_static <$> demoAccounts st ∧
     demoUsers st' = demoUsers st ∧
     currentUser st' = currentUser st ∧
     stored_demoAccounts (localStorage st') = json_account <$> demoAccounts st' ∧
     stored_demoTransactions (localStorage st')
       = json_transaction <$> demoTransactions st' ∧
     stored_demoAlerts (localStorage st') = demoAlerts st').
Proof.
  cbv zeta. destruct op as [receiverAccount amount description|currency amount|currency amount];
    cbn [submit].
  - unfold transferMoney.
    destruct (currentUser st) as [u|] eqn:Hu; [|by left].
    destruct (list_find (active_account_of u) _) as [[i senderAccount]|]; [|by left].
    destruct (list_find (active_account_numbered _) _) as [[j receiverAcc]|]; [|by left].
    destruct (PrimFloat.ltb _ amount); [by left|].
    right. do 2 eexists. cbn. rewrite Hu. repeat split.
    by rewrite !alter_keeps_static.
  - unfold depositMoney.
    destruct (currentUser st) as [u|] eqn:Hu; [|by left].
    destruct (list_find (active_account_of u) _) as [[i userAccount]|]; [|by left].
    right. do 2 eexists. cbn. rewrite Hu. repeat split.
    apply alter_keeps_static, deposit_to_static.
  - unfold withdrawMoney.
    destruct (currentUser st) as [u|] eqn:Hu; [|by left].
    destruct (list_find (active_account_of u) _) as [[i userAccount]|]; [|by left].
    destruct (PrimFloat.ltb _ amount); [by left|].
    right. do 2 eexists. cbn. rewrite Hu. repeat split.
    apply alter_keeps_static, withdraw_from_static.
Qed.

(** X12. No sequence of transfers, deposits and withdrawals adds or removes
    an account, or changes the id, owner, number, type, status or creation
    date of one; nor does it touch [demoUsers] or [currentUser]. *)
Theorem operations_keep_accounts ops st :
  account_static <$> demoAccounts (submit_all ops st) = account_static <$> demoAccounts st ∧
  demoUsers (submit_all ops st) = demoUsers st ∧
  currentUser (submit_all ops st) = currentUser st.
Proof.
  revert st. induction ops as [|[env op] ops IH]; intros st; [done|].
  cbn. destruct (IH (submit env op st)) as (-> & -> & ->).
  destruct (submit_cases env op st) as [H|(tx & msg & _ & _ & _ & -> & -> & -> & _)];
    [|done].
  injection H as Hus Hacc _ _ Hcur _. by rewrite Hus, Hacc, Hcur.
Qed.

(** X13. The transaction list of the demo only grows at its end: after any
    sequence of submitted forms it is the list there was followed by at most
    one object per form, each with status 'COMPLETED'. *)
Theorem transactions_only_appended ops st :
  ∃ added,
    demoTransactions (submit_all ops st) = (demoTransactions st ++ added)%list ∧
    (length added ≤ length ops)%nat ∧
    Forall (λ tx, transaction.status tx = "COMPLETED") added.
Proof.
  revert st. induction ops as [|[env op] ops IH]; intros st.
  - exists []. by rewrite app_nil_r.
  - cbn. destruct (IH (submit env op st)) as (added & -> & Hlen & Hall).
    destruct (submit_cases env op st) as [H|(tx & msg & -> & Htx & _)].
    + injection H as _ _ Htx _ _ _. exists added. rewrite Htx.
      repeat split; [lia|done].
    + exists (tx :: added). rewrite <- app_assoc. repeat split; [cbn; lia|].
      by constructor.
Qed.

(** X14. Logged out, nothing can be done: after [logout], any sequence of
    transfers, deposits and withdrawals returns the state unchanged, toast
    included. *)
Theorem logged_out_is_inert ops st :
  submit_all ops (logout st) = logout st.
Proof.
  induction ops as [|[env op] ops IH]; [done|].
  cbn. destruct op; cbn; exact IH.
Qed.

(** ** Deposits and withdrawals *)

(** X15. A deposit is never refused: with a user logged in and a first
    ACTIVE account of that user, [depositMoney] adds the amount (whatever its
    sign) to [balance_usd] when the currency is 'USD' and to [balance_slsh]
    for every other currency text, leaves the other balance and every other
    account as they were, pushes a 'DEPOSIT' transaction without a sender
    that carries the currency text as given, pushes an alert and shows the
    success toast. *)
Theorem depositMoney_completes env currency amount st u i userAccount :
  currentUser st = Some u →
  list_find (active_account_of u) (demoAccounts st) = Some (i, userAccount) →
  let st' := depositMoney env currency amount st in
  let after := deposit_to currency amount userAccount in
  demoAccounts st' !! i = Some after ∧
  (∀ k, k ≠ i → demoAccounts st' !! k = demoAccounts st !! k) ∧
  (currency = "USD" →
     account.balance_usd after
       = PrimFloat.add (or_zero (account.balance_usd userAccount)) amount ∧
     account.balance_slsh after = account.balance_slsh userAccount) ∧
  (currency ≠ "USD" →
     account.balance_slsh after
       = PrimFloat.add (or_zero (account.balance_slsh userAccount)) amount ∧
     account.balance_usd after = account.balance_usd userAccount) ∧
  demoTransactions st'
    = (demoTransactions st ++ [deposit_record env userAccount currency amount])%list ∧
  transaction.sender_account_id (deposit_record env userAccount currency amount) = None ∧
  transaction.currency (deposit_record env userAccount currency amount) = currency ∧
  demoAlerts st' = (demoAlerts st ++ [deposit_alert env u currency amount])%list ∧
  snd <$> toast st' = Some "success".
Proof.
  intros Hu Hf st' after. subst st' after. unfold depositMoney. rewrite Hu, Hf. cbn.
  apply list_find_Some in Hf as (Hi & _ & _).
  split; [by rewrite list_lookup_alter_eq, Hi|].
  split; [intros k Hk; by rewrite list_lookup_alter_ne|].
  unfold deposit_to.
  split; [intros ->; by rewrite decide_True|].
  split; [intros Hne; by rewrite decide_False|].
  done.
Qed.

Lemma depositMoney_completes_witness :
  let st' := depositMoney demo_browser "EUR" (-500)%float demo_state in
  account.balance_slsh <$> demoAccounts st' !! 0%nat = Some 99500%float ∧
  account.balance_usd <$> demoAccounts st' !! 0%nat = Some 50%float ∧
  transaction.currency <$> demoTransactions st' = ["EUR"].
Proof.
  destruct (depositMoney_completes demo_browser "EUR" (-500)%float demo_state
              admin_user 0%nat admin_account)
    as (Hi & _ & _ & _ & Htx & _ & _ & _ & _).
  - reflexivity.
  - vm_compute. reflexivity.
  - cbv zeta. rewrite Hi, Htx. repeat split; vm_compute; reflexivity.
Defined.

(** X16. A withdrawal goes through when the amount is not above the balance
    of the chosen currency (read as 0 when it is 0 or NaN): the amount is
    subtracted from that balance only, a 'WITHDRAWAL' transaction without a
    receiver is pushed, and a LARGE_WITHDRAWAL alert is pushed exactly when
    the amount is above 10000, or above 100 in USD. *)
Theorem withdrawMoney_completes env currency amount st u i userAccount :
  currentUser st = Some u →
  list_find (active_account_of u) (demoAccounts st) = Some (i, userAccount) →
  PrimFloat.leb amount (currentBalance currency userAccount) = true →
  let st' := withdrawMoney env currency amount st in
  let after := withdraw_from currency amount userAccount in
  demoAccounts st' !! i = Some after ∧
  (∀ k, k ≠ i → demoAccounts st' !! k = demoAccounts st !! k) ∧
  (currency = "USD" →
     account.balance_usd after = PrimFloat.sub (account.balance_usd userAccount) amount ∧
     account.balance_slsh after = account.balance_slsh userAccount) ∧
  (currency ≠ "USD" →
     account.balance_slsh after = PrimFloat.sub (account.balance_slsh userAccount) amount ∧
     account.balance_usd after = account.balance_usd userAccount) ∧
  demoTransactions st'
    = (demoTransactions st ++ [withdrawal_record env userAccount currency amount])%list ∧
  transaction.receiver_account_id (withdrawal_record env userAccount currency amount)
    = None ∧
  demoAlerts st'
    = (demoAlerts st
       ++ if is_large_withdrawal currency amount
          then [large_withdrawal_alert env u currency amount] else [])%list ∧
  snd <$> toast st' = Some "success".
Proof.
  intros Hu Hf Hle st' after. subst st' after. unfold withdrawMoney.
  rewrite Hu, Hf, (leb_not_ltb _ _ Hle). cbn.
  apply list_find_Some in Hf as (Hi & _ & _).
  split; [by rewrite list_lookup_alter_eq, Hi|].
  split; [intros k Hk; by rewrite list_lookup_alter_ne|].
  unfold withdraw_from.
  split; [intros ->; by rewrite decide_True|].
  split; [intros Hne; by rewrite decide_False|].
  split; [done|]. split; [done|]. split; [|done].
  destruct (is_large_withdrawal currency amount); [done|by rewrite app_nil_r].
Qed.

Lemma withdrawMoney_completes_witness :
  let st' := withdrawMoney demo_browser "USD" 50%float demo_state in
  account.balance_usd <$> demoAccounts st' !! 0%nat = Some 0%float ∧
  account.balance_slsh <$> demoAccounts st' !! 0%nat = Some 100000%float ∧
  length (demoAlerts st') = 0%nat.
Proof.
  destruct (withdrawMoney_completes demo_browser "USD" 50%float demo_state
              admin_user 0%nat admin_account)
    as (Hi & _ & _ & _ & _ & _ & Hal & _).
  - reflexivity.
  - vm_compute. reflexivity.
  - vm_compute. reflexivity.
  - cbv zeta. rewrite Hi, Hal. repeat split; vm_compute; reflexivity.
Defined.

(** X17. A withdrawal above the balance of the chosen currency is refused:
    the toast says so and nothing else changes; the balance in the other
    currency does not help. *)
Theorem withdrawMoney_refuses env currency amount st u i userAccount :
  currentUser st = Some u →
  list_find (active_account_of u) (demoAccounts st) = Some (i, userAccount) →
  PrimFloat.ltb (currentBalance currency userAccount) amount = true →
  withdrawMoney env currency amount st
  = showToast ("Insufficient " ++ currency ++ " balance")%string "error" st.
Proof.
  intros Hu Hf Hlt. unfold withdrawMoney. by rewrite Hu, Hf, Hlt.
Qed.

Lemma withdrawMoney_refuses_witness :
  withdrawMoney demo_browser "USD" 51%float demo_state
  = showToast "Insufficient USD balance" "error" demo_state.
Proof.
  apply (withdrawMoney_refuses demo_browser "USD" 51%float demo_state
           admin_user 0%nat admin_account).
  - reflexivity.
  - vm_compute. reflexivity.
  - vm_compute. reflexivity.
Defined.

(** ** Registration and login *)

(** X18. [register] never makes two users share an email or a phone: if the
    emails of [demoUsers] are pairwise different, and the phones too, they
    still are after any call of [register]. *)
Theorem register_keeps_users_distinct env fullName email phone password st :
  NoDup (user.email <$> demoUsers st) →
  NoDup (user.phone <$> demoUsers st) →
  NoDup (user.email <$> demoUsers (register env fullName email phone password st)) ∧
  NoDup (user.phone <$> demoUsers (register env fullName email phone password st)).
Proof.
  intros He Hp. unfold register.
  destruct (list_find (same_email_or_phone email phone) (demoUsers st)) as [[i x]|] eqn:Hf;
    [done|].
  apply list_find_None in Hf. rewrite Forall_forall in Hf. cbn.
  rewrite !fmap_app. cbn. split.
  - apply NoDup_app. split; [done|]. split; [|apply NoDup_singleton].
    intros e [x [-> Hx]]%list_elem_of_fmap Heq%list_elem_of_singleton.
    apply (Hf x Hx). by left.
  - apply NoDup_app. split; [done|]. split; [|apply NoDup_singleton].
    intros e [x [-> Hx]]%list_elem_of_fmap Heq%list_elem_of_singleton.
    apply (Hf x Hx). by right.
Qed.

Lemma register_keeps_users_distinct_witness :
  NoDup (user.email <$> demoUsers
           (register demo_registration "Fatima Hassan" "fatima@example.com"
                     "+252634567891" "secret" demo_state)) ∧
  length (demoUsers
            (register demo_registration "Fatima Hassan" "fatima@example.com"
                      "+252634567891" "secret" demo_state)) = 2%nat.
Proof.
  destruct (register_keeps_users_distinct demo_registration "Fatima Hassan"
              "fatima@example.com" "+252634567891" "secret" demo_state) as [He _].
  - refine (bool_decide_unpack _ _). vm_compute. exact I.
  - refine (bool_decide_unpack _ _). vm_compute. exact I.
  - split; [exact He|]. vm_compute. reflexivity.
Defined.

(** X19. A registration can be used: when no user has the email or the
    phone, [register] logs the new user in, and after [logout] a [login] with
    the same email and password logs that same user in again. *)
Theorem register_logout_login env senv fullName email phone password st :
  list_find (same_email_or_phone email phone) (demoUsers st) = None →
  let st1 := register env fullName email phone password st in
  currentUser st1 = Some (new_user env fullName email phone password) ∧
  currentUser (logout st1) = None ∧
  currentUser (login senv email password (logout st1))
    = Some (new_user env fullName email phone password).
Proof.
  intros Hf st1. subst st1. unfold register. rewrite Hf. cbn.
  split; [done|]. split; [done|].
  unfold login. cbn.
  assert (list_find (has_credentials email password)
            (demoUsers st ++ [new_user env fullName email phone password])
          = Some (length (demoUsers st), new_user env fullName email phone password))
    as ->; [|done].
  apply list_find_Some. split; [|split].
  - by rewrite lookup_app_r, Nat.sub_diag.
  - done.
  - intros j y Hj Hlt [Hy _]. rewrite lookup_app_l in Hj by done.
    apply list_find_None in Hf. rewrite Forall_forall in Hf.
    apply (Hf y); [by eapply list_elem_of_lookup_2|by left].
Qed.

Lemma register_logout_login_witness :
  user.email <$>
    currentUser (login demo_session "fatima@example.com" "secret"
                   (logout (register demo_registration "Fatima Hassan"
                              "fatima@example.com" "+252634567891" "secret"
                              demo_state)))
  = Some "fatima@example.com".
Proof.
  destruct (register_logout_login demo_registration demo_session "Fatima Hassan"
              "fatima@example.com" "+252634567891" "secret" demo_state)
    as (_ & _ & ->).
  - vm_compute. reflexivity.
  - reflexivity.
Defined.

(** X20. A new user can bank at once: after a [register] that went through,
    a deposit is carried out, on an account that belongs to the new user. *)
Theorem register_then_deposit env benv fullName email phone password currency amount st :
  list_find (same_email_or_phone email phone) (demoUsers st) = None →
  let st1 := register env fullName email phone password st in
  let st2 := depositMoney benv currency amount st1 in
  snd <$> toast st2 = Some "success" ∧
  ∃ tx a,
    demoTransactions st2 = (demoTransactions st ++ [tx])%list ∧
    a ∈ demoAccounts st1 ∧
    account.user_id a = generateId_user env ∧
    transaction.receiver_account_id tx = Some (account.account_id a).
Proof.
  intros Hf st1 st2. subst st2 st1. unfold register. rewrite Hf. cbn.
  unfold depositMoney. cbn.
  destruct (list_find_elem_of
              (active_account_of (new_user env fullName email phone password))
              (demoAccounts st ++ [new_account env]) (new_account env))
    as [[i a] Hi].
  { apply elem_of_app. right. apply list_elem_of_singleton. done. }
  { done. }
  rewrite Hi. cbn. split; [done|].
  apply list_find_Some in Hi as (Hi & [Hown _] & _).
  eexists _, a. split; [reflexivity|]. split; [by eapply list_elem_of_lookup_2|].
  done.
Qed.

Lemma register_then_deposit_witness :
  snd <$> toast (depositMoney demo_browser "USD" 5%float
                   (register demo_registration "Fatima Hassan" "fatima@example.com"
                             "+252634567891" "secret" demo_state))
  = Some "success".
Proof.
  destruct (register_then_deposit demo_registration demo_browser "Fatima Hassan"
              "fatima@example.com" "+252634567891" "secret" "USD" 5%float demo_state)
    as [H _].
  - vm_compute. reflexivity.
  - exact H.
Defined.

(** X21. [login] needs the credentials: either no user has this email with
    this password, and then only the toast changes, or the user logged in is
    the first user of [demoUsers] with this email and this password, an
    alert for that user is pushed and the arrays are saved. *)
Theorem login_needs_credentials env email password st :
  let st' := login env email password st in
  (Forall (λ u, ¬ has_credentials email password u) (demoUsers st) ∧
   st' = showToast "Invalid email or password" "error" st) ∨
  (∃ i u,
     demoUsers st !! i = Some u ∧
     user.email u = email ∧ user.password u = password ∧
     (∀ j v, demoUsers st !! j = Some v → (j < i)%nat →
             ¬ has_credentials email password v) ∧
     currentUser st' = Some u ∧
     demoAlerts st' = (demoAlerts st ++ [login_alert env u])%list ∧
     stored_currentUser (localStorage st') = Some u ∧
     stored_demoAlerts (localStorage st') = demoAlerts st' ∧
     demoUsers st' = demoUsers st ∧ demoAccounts st' = demoAccounts st ∧
     demoTransactions st' = demoTransactions st).
Proof.
  cbv zeta. unfold login.
  destruct (list_find (has_credentials email password) (demoUsers st))
    as [[i u]|] eqn:Hf.
  - right. apply list_find_Some in Hf as (Hi & [He Hp] & Hfirst).
    exists i, u. cbn. repeat split; try done.
  - left. split; [by apply (list_find_None (has_credentials email password))|done].
Qed.

(** ** Alerts *)

Lemma list_find_alter {A} (P : A → Prop) `{∀ x, Decision (P x)} (f : A → A)
    (l : list A) i a :
  (∀ x, P (f x) ↔ P x) →
  list_find P l = Some (i, a) → list_find P (alter f i l) = Some (i, f a).
Proof.
  intros Hf (Hi & Ha & Hfirst)%list_find_Some. apply list_find_Some.
  split; [by rewrite list_lookup_alter_eq, Hi|]. split; [by apply Hf|].
  intros j y Hj Hlt. rewrite list_lookup_alter_ne in Hj by lia. eauto.
Qed.

(** X23. Clicking an alert twice is clicking it once: the second click
    finds the same alert, already read, and leaves the state as it is. *)
Theorem alert_item_click_idempotent alertId st :
  alert_item_click alertId (alert_item_click alertId st) = alert_item_click alertId st.
Proof.
  unfold alert_item_click at 2 3.
  destruct (list_find (λ a, alert.alert_id a = alertId) (demoAlerts st))
    as [[i a]|] eqn:Hf.
  - unfold alert_item_click. cbn.
    rewrite (list_find_alter (λ a, alert.alert_id a = alertId) mark_read _ i a);
      [|done|done].
    unfold saveData, with_arrays. cbn.
    rewrite list_alter_alter_eq.
    assert (alter (mark_read ∘ mark_read) i (demoAlerts st)
            = alter mark_read i (demoAlerts st)) as -> by (by apply list_alter_ext).
    done.
  - unfold alert_item_click. by rewrite Hf.
Qed.

Lemma filter_alter_length {A} (P : A → Prop) `{∀ x, Decision (P x)} (f : A → A)
    (l : list A) i a :
  l !! i = Some a → P a → ¬ P (f a) →
  S (length (filter P (alter f i l))) = length (filter P l).
Proof.
  revert i. induction l as [|x l IH]; intros [|i] Hi Ha Hfa; try done.
  - cbn in Hi. injection Hi as ->.
    change (alter f 0%nat (a :: l)) with (f a :: l).
    by rewrite filter_cons_False, filter_cons_True.
  - cbn in Hi. change (alter f (S i) (x :: l)) with (x :: alter f i l).
    rewrite !filter_cons.
    destruct (decide (P x)); cbn [length]; by rewrite <- (IH i Hi Ha Hfa).
Qed.

(** X24. Reading an alert lowers the badge by one: when the clicked id is
    first carried by an unread alert of the logged-in user, the number of
    unread alerts goes down by exactly one. *)
Theorem alert_item_click_lowers_badge alertId st u i a :
  currentUser st = Some u →
  list_find (λ a, alert.alert_id a = alertId) (demoAlerts st) = Some (i, a) →
  alert.user_id a = user.user_id u → alert.is_read a = false →
  S <$> alertCount (alert_item_click alertId st) = alertCount st.
Proof.
  intros Hu Hf Hown Hunread. unfold alert_item_click. rewrite Hf.
  unfold alertCount. cbn. rewrite Hu. cbn. f_equal.
  apply list_find_Some in Hf as (Hi & _ & _).
  apply (filter_alter_length _ _ _ _ a); [done|done|].
  intros [_ Hr]. done.
Qed.

(** X25. Every deposit that is carried out raises the badge of the
    depositor by one. *)
Theorem deposit_raises_badge env currency amount st u i userAccount :
  currentUser st = Some u →
  list_find (active_account_of u) (demoAccounts st) = Some (i, userAccount) →
  alertCount (depositMoney env currency amount st) = S <$> alertCount st.
Proof.
  intros Hu Hf. unfold depositMoney, alertCount. rewrite Hu, Hf. cbn. rewrite Hu.
  cbn. f_equal. rewrite filter_app, length_app, filter_cons_True, filter_nil by done.
  cbn. lia.
Qed.

Lemma deposit_raises_badge_witness :
  alertCount (depositMoney demo_browser "USD" 5%float demo_state) = Some 1%nat.
Proof.
  rewrite (deposit_raises_badge demo_browser "USD" 5%float demo_state
             admin_user 0%nat admin_account).
  - vm_compute. reflexivity.
  - reflexivity.
  - vm_compute. reflexivity.
Defined.

Lemma alert_item_click_lowers_badge_witness :
  alertCount (alert_item_click "l-1"
                (depositMoney demo_browser "USD" 5%float demo_state))
  = Some 0%nat.
Proof.
  pose proof (alert_item_click_lowers_badge "l-1"
                (depositMoney demo_browser "USD" 5%float demo_state)
                admin_user 0%nat (deposit_alert demo_browser admin_user "USD" 5%float))
    as H.
  specialize (H eq_refl). specialize (H ltac:(vm_compute; reflexivity)).
  specialize (H eq_refl eq_refl).
  destruct (alertCount (alert_item_click _ _)) as [n|]; [|discriminate].
  cbn in H. injection H as H. f_equal. lia.
Defined.

End AppDemoProps.
